(** * Stripe webhook handler (lambda/lamda-function.py): model and properties

    A shallow embedding of the AWS Lambda handler that receives a Stripe
    webhook, verifies its signature through the Stripe SDK, rewrites the
    verified event into the internal "normalized" JSON document and prints
    it, the e-mail address and the customer id entering its [pii] section
    as SHA-256 tokens.

    Conventions of the model.
    - A Python [str] is represented by the UTF-8 encoding of its text, held
      in a Rocq [string] (one [ascii] per byte), so [s.encode('utf-8')] is
      the byte list of the representation. A [str] that holds a lone
      surrogate code point (what [json.loads] makes of an escape such as
      \ud800) has no UTF-8 encoding: [encode] raises [UnicodeEncodeError] on
      it. Such a value is kept apart, as [PLoneStr] among the values and
      [BodyLoneText] among the request bodies.
    - JSON-like Python values (what [json.loads] and the SDK hand out) are the
      untyped values [PyVal]; a mapping is a [gmap] from keys to values.
    - The handler's effects (lines printed, the call of the SDK verifier) are
      collected in a trace; an exception that the handler does not catch is
      the result [Raise]. A [print] adds its line to the trace: how the log
      stream encodes the text is the platform's matter.
    - What the Python runtime and the Stripe SDK provide and the repository
      does not contain is gathered in the class [Runtime]. *)

From Stdlib Require Import ZArith NArith String Ascii List Bool.
From Stdlib Require Import Strings.Byte Floats.SpecFloat.
From stdpp Require Import base option gmap strings list fin_maps.
Import ListNotations.

Set Warnings "-register-all".

(** ** Python values *)

Inductive PyVal : Type :=
| PNone
| PBool (b : bool)
| PInt (z : Z)
| PFloat (f : spec_float)
| PStr (s : string)
| PLoneStr (s : string)
| PList (l : list PyVal)
| PDict (d : gmap string PyVal).

Definition is_empty_string (s : string) : bool :=
  match s with EmptyString => true | String _ _ => false end.

Definition float_is_zero (f : spec_float) : bool :=
  match f with S754_zero _ => true | _ => false end.

(** Python truth value testing: [None], [False], zero, and the empty string,
    list and mapping are false; everything else is true. A string that
    holds a surrogate is not empty. *)
Definition truthy (v : PyVal) : bool :=
  match v with
  | PNone => false
  | PBool b => b
  | PInt z => negb (z =? 0)%Z
  | PFloat f => negb (float_is_zero f)
  | PStr s => negb (is_empty_string s)
  | PLoneStr _ => true
  | PList l => match l with [] => false | _ :: _ => true end
  | PDict d => negb (Nat.eqb (size d) 0)
  end.

(** [a or b], both operands already evaluated. *)
Definition py_or (a b : PyVal) : PyVal := if truthy a then a else b.

(** [isinstance(v, int)] for a value that is written as a JSON integer. *)
Definition is_int (v : PyVal) : bool :=
  match v with PInt _ => true | _ => false end.

(** [v != "text"], for a literal ["text"] (which holds no surrogate). *)
Definition py_ne_str (v : PyVal) (text : string) : bool :=
  match v with
  | PStr s => negb (String.eqb s text)
  | _ => true
  end.

(** ** Exceptions *)

Inductive PyExc : Type :=
  AttributeError | TypeError | ValueError | UnicodeEncodeError.

Inductive result (A : Type) : Type :=
| Ok (a : A)
| Raise (e : PyExc).
Arguments Ok {A} a.
Arguments Raise {A} e.

#[global] Instance result_ret : MRet result := fun A a => Ok a.
#[global] Instance result_bind : MBind result := fun A B k r =>
  match r with
  | Ok a => k a
  | Raise e => Raise e
  end.

Definition is_ok {A} (r : result A) : bool :=
  match r with Ok _ => true | Raise _ => false end.

(** [d.get(k)] on a mapping: the value, or [None]. *)
Definition dict_get (d : gmap string PyVal) (k : string) : PyVal :=
  default PNone (d !! k).

(** [v.get(k)] on an arbitrary value: only mappings have the method. *)
Definition py_get (v : PyVal) (k : string) : result PyVal :=
  match v with
  | PDict d => Ok (dict_get d k)
  | _ => Raise AttributeError
  end.

(** ** Python [str] methods on UTF-8 text *)

Module PyStr.

Definition bytes_of (codes : list N) : list ascii := map ascii_of_N codes.

(** The characters [str.isspace] accepts, as UTF-8 byte sequences: the
    ASCII ones (tab to carriage return, the four separators 0x1C-0x1F,
    space) and U+0085, U+00A0, U+1680, U+2000-U+200A, U+2028, U+2029,
    U+202F, U+205F, U+3000. *)
Definition whitespace : list (list ascii) :=
  map bytes_of
    ([ [9]; [10]; [11]; [12]; [13]; [28]; [29]; [30]; [31]; [32];
       [0xC2; 0x85]; [0xC2; 0xA0]; [0xE1; 0x9A; 0x80] ]
     ++ map (fun b => [0xE2; 0x80; b])
            [0x80; 0x81; 0x82; 0x83; 0x84; 0x85; 0x86; 0x87; 0x88; 0x89; 0x8A;
             0xA8; 0xA9; 0xAF]
     ++ [ [0xE2; 0x81; 0x9F]; [0xE3; 0x80; 0x80] ])%N.

Fixpoint starts_with (p s : list ascii) : bool :=
  match p, s with
  | [], _ => true
  | a :: p', b :: s' => Ascii.eqb a b && starts_with p' s'
  | _ :: _, [] => false
  end.

(** Byte length of the whitespace character at the head of [s], 0 when
    [s] does not start with one. *)
Definition space_len (seqs : list (list ascii)) (s : list ascii) : nat :=
  match find (fun p => starts_with p s) seqs with
  | Some p => length p
  | None => 0
  end.

(** Drop leading whitespace characters; [skip] counts the bytes still to
    drop of the character being removed. *)
Fixpoint drop_spaces (seqs : list (list ascii)) (skip : nat) (s : list ascii)
  : list ascii :=
  match s with
  | [] => []
  | _ :: s' =>
      match skip with
      | S k => drop_spaces seqs k s'
      | O =>
          match space_len seqs s with
          | O => s
          | S k => drop_spaces seqs k s'
          end
      end
  end.

Definition lstrip (s : list ascii) : list ascii := drop_spaces whitespace 0 s.
Definition rstrip (s : list ascii) : list ascii :=
  rev (drop_spaces (map (@rev ascii) whitespace) 0 (rev s)).

(** [s.strip()] *)
Definition strip (s : string) : string :=
  string_of_list_ascii (rstrip (lstrip (list_ascii_of_string s))).

Definition is_ascii (c : ascii) : bool := (N_of_ascii c <? 128)%N.

Definition ascii_lower (c : ascii) : ascii :=
  let n := N_of_ascii c in
  if ((65 <=? n) && (n <=? 90))%N then ascii_of_N (n + 32) else c.

(** Byte-wise lowering of ASCII text. *)
Definition lower_ascii (s : string) : string :=
  string_of_list_ascii (map ascii_lower (list_ascii_of_string s)).

(** [s.encode('utf-8')] *)
Definition encode_utf8 (s : string) : list byte := list_byte_of_string s.

End PyStr.

(** ** SHA-256 ([hashlib.sha256], FIPS 180-4) and its hexadecimal digest *)

Module SHA256.
Local Open Scope N_scope.

Definition mask32 : N := 0xFFFFFFFF.
Definition add32 (x y : N) : N := N.land (x + y) mask32.
Definition rotr (n x : N) : N :=
  N.lor (N.shiftr x n) (N.land (N.shiftl x (32 - n)) mask32).
Definition not32 (x : N) : N := N.lxor x mask32.

Definition Ch (x y z : N) : N := N.lxor (N.land x y) (N.land (not32 x) z).
Definition Maj (x y z : N) : N :=
  N.lxor (N.lxor (N.land x y) (N.land x z)) (N.land y z).
Definition bsig0 (x : N) : N := N.lxor (N.lxor (rotr 2 x) (rotr 13 x)) (rotr 22 x).
Definition bsig1 (x : N) : N := N.lxor (N.lxor (rotr 6 x) (rotr 11 x)) (rotr 25 x).
Definition ssig0 (x : N) : N :=
  N.lxor (N.lxor (rotr 7 x) (rotr 18 x)) (N.shiftr x 3).
Definition ssig1 (x : N) : N :=
  N.lxor (N.lxor (rotr 17 x) (rotr 19 x)) (N.shiftr x 10).

Definition K : list N :=
  [ 0x428A2F98; 0x71374491; 0xB5C0FBCF; 0xE9B5DBA5; 0x3956C25B; 0x59F111F1; 0x923F82A4; 0xAB1C5ED5;
    0xD807AA98; 0x12835B01; 0x243185BE; 0x550C7DC3; 0x72BE5D74; 0x80DEB1FE; 0x9BDC06A7; 0xC19BF174;
    0xE49B69C1; 0xEFBE4786; 0x0FC19DC6; 0x240CA1CC; 0x2DE92C6F; 0x4A7484AA; 0x5CB0A9DC; 0x76F988DA;
    0x983E5152; 0xA831C66D; 0xB00327C8; 0xBF597FC7; 0xC6E00BF3; 0xD5A79147; 0x06CA6351; 0x14292967;
    0x27B70A85; 0x2E1B2138; 0x4D2C6DFC; 0x53380D13; 0x650A7354; 0x766A0ABB; 0x81C2C92E; 0x92722C85;
    0xA2BFE8A1; 0xA81A664B; 0xC24B8B70; 0xC76C51A3; 0xD192E819; 0xD6990624; 0xF40E3585; 0x106AA070;
    0x19A4C116; 0x1E376C08; 0x2748774C; 0x34B0BCB5; 0x391C0CB3; 0x4ED8AA4A; 0x5B9CCA4F; 0x682E6FF3;
    0x748F82EE; 0x78A5636F; 0x84C87814; 0x8CC70208; 0x90BEFFFA; 0xA4506CEB; 0xBEF9A3F7; 0xC67178F2 ].

Record regs := Regs { ra : N; rb : N; rc : N; rd : N; re : N; rf : N; rg : N; rh : N }.

Definition H0 : regs :=
  Regs 0x6A09E667 0xBB67AE85 0x3C6EF372 0xA54FF53A 0x510E527F 0x9B05688C 0x1F83D9AB 0x5BE0CD19.

Definition round (st : regs) (kw : N * N) : regs :=
  let t1 :=
    add32 (add32 (add32 (add32 (rh st) (bsig1 (re st))) (Ch (re st) (rf st) (rg st)))
                 (fst kw)) (snd kw) in
  let t2 := add32 (bsig0 (ra st)) (Maj (ra st) (rb st) (rc st)) in
  Regs (add32 t1 t2) (ra st) (rb st) (rc st) (add32 (rd st) t1) (re st) (rf st) (rg st).

Fixpoint schedule (n : nat) (win : list N) : list N :=
  match n, win with
  | S n', w0 :: rest =>
      let w16 :=
        add32 (add32 (add32 (ssig1 (nth 14 win 0)) (nth 9 win 0)) (ssig0 (nth 1 win 0)))
              w0 in
      w0 :: schedule n' (rest ++ [w16])
  | _, _ => []
  end.

Fixpoint be_words (n : nat) (bs : list N) : list N :=
  match n, bs with
  | S n', b0 :: b1 :: b2 :: b3 :: rest =>
      (N.shiftl b0 24 + N.shiftl b1 16 + N.shiftl b2 8 + b3) :: be_words n' rest
  | _, _ => []
  end.

Definition compress (h : regs) (block : list N) : regs :=
  let st := fold_left round (combine K (schedule 64 (be_words 16 block))) h in
  Regs (add32 (ra h) (ra st)) (add32 (rb h) (rb st)) (add32 (rc h) (rc st)) (add32 (rd h) (rd st))
       (add32 (re h) (re st)) (add32 (rf h) (rf st)) (add32 (rg h) (rg st)) (add32 (rh h) (rh st)).

Definition be64 (x : N) : list N :=
  map (fun i => N.land (N.shiftr x (8 * i)) 0xFF) [7; 6; 5; 4; 3; 2; 1; 0].

Definition pad (msg : list N) : list N :=
  let len := N.of_nat (length msg) in
  msg ++ [0x80] ++ repeat 0 (N.to_nat ((119 - len mod 64) mod 64)) ++ be64 (8 * len).

Fixpoint blocks (n : nat) (bs : list N) : list (list N) :=
  match n with
  | O => []
  | S n' => firstn 64 bs :: blocks n' (skipn 64 bs)
  end.

Definition sha256 (msg : list byte) : regs :=
  let padded := pad (map Byte.to_N msg) in
  fold_left compress (blocks (Nat.div (length padded) 64) padded) H0.

Definition hex_digit (n : N) : ascii :=
  nth (N.to_nat (N.land n 15)) (list_ascii_of_string "0123456789abcdef") "0"%char.

Definition hex8 (w : N) : list ascii :=
  map (fun i => hex_digit (N.shiftr w (4 * i))) [7; 6; 5; 4; 3; 2; 1; 0].

Definition hexdigest (r : regs) : string :=
  string_of_list_ascii
    (hex8 (ra r) ++ hex8 (rb r) ++ hex8 (rc r) ++ hex8 (rd r) ++
     hex8 (re r) ++ hex8 (rf r) ++ hex8 (rg r) ++ hex8 (rh r)).
End SHA256.

(** ** What the platform provides *)

(** Outcome of [stripe.Webhook.construct_event(payload, sig_header, secret)]:
    the decoded event (a mapping), [stripe.error.SignatureVerificationError],
    or any other [Exception], kept with its [str(e)]. *)
Inductive VerifyOutcome : Type :=
| Verified (stripe_event : gmap string PyVal)
| SignatureVerificationError
| OtherException (msg : string).

(** The library functions the handler calls and the repository does not
    define. [unicode_lower] is [str.lower] on text that has non-ASCII
    characters (CPython lowers pure ASCII text byte by byte and consults the
    Unicode tables otherwise). [construct_event] is the verifier as it
    answers during the invocation at hand (its tolerance check reads the
    clock). *)
Class Runtime : Type := {
  unicode_lower : string -> string;
  b64decode : string -> result (list byte);
  construct_event : list byte -> string -> string -> VerifyOutcome
}.

(** [s.lower()] *)
Definition py_lower `{Runtime} (s : string) : string :=
  if forallb PyStr.is_ascii (list_ascii_of_string s)
  then PyStr.lower_ascii s
  else unicode_lower s.

(** ** The request and the response *)

(** The value under the event's ["body"] key: no such key, null, text, or
    text that holds a lone surrogate. *)
Inductive Body : Type :=
| BodyMissing
| BodyNull
| BodyText (s : string)
| BodyLoneText (s : string).

(** The API Gateway proxy event, as far as the handler reads it: header
    names and values are strings. [ev_headers] is [None] when the key is
    missing or null, and [ev_isBase64Encoded] is the truth value of
    [event.get("isBase64Encoded")]. *)
Record LambdaEvent : Type := {
  ev_headers : option (gmap string string);
  ev_body : Body;
  ev_isBase64Encoded : bool
}.

Record Response : Type := {
  statusCode : Z;
  headers : option (gmap string string);
  body : string
}.

(** ** Effects *)

(** The lines the handler prints. *)
Inductive Line : Type :=
| InvalidSignatureLine                 (* "INVALID Stripe signature" *)
| VerifyErrorLine (msg : string)        (* "Verify error:", str(e) *)
| ValidWebhookLine                      (* "VALID Stripe webhook" *)
| EventIdLine (v : PyVal)               (* "Event ID:", stripe_event.get("id") *)
| EventTypeLine (v : PyVal)             (* "Event type:", stripe_event.get("type") *)
| NormalizedJsonLine (normalized : PyVal). (* "NORMALIZED JSON:", json.dumps(normalized) *)

Inductive Effect : Type :=
| Print (l : Line)
| CallConstructEvent (payload : list byte) (sig_header secret : string).

(** A run: the effects in order, then a value or an uncaught exception. *)
Record Exec (A : Type) : Type := MkExec {
  trace : list Effect;
  outcome : result A
}.
Arguments MkExec {A} trace outcome.
Arguments trace {A} e.
Arguments outcome {A} e.

#[global] Instance Exec_ret : MRet Exec := fun A a => MkExec [] (Ok a).
#[global] Instance Exec_bind : MBind Exec := fun A B k m =>
  match outcome m with
  | Ok a => MkExec (trace m ++ trace (k a)) (outcome (k a))
  | Raise e => MkExec (trace m) (Raise e)
  end.

Definition lift {A} (r : result A) : Exec A := MkExec [] r.
Definition print (l : Line) : Exec unit := MkExec [Print l] (Ok tt).

(** The call of the SDK verifier, recorded in the trace. *)
Definition call_construct_event `{Runtime} (payload : list byte) (sig_header secret : string)
  : Exec VerifyOutcome :=
  MkExec [CallConstructEvent payload sig_header secret]
         (Ok (construct_event payload sig_header secret)).

(** ** Helpers of the source *)

(** [get_raw_body(event)]. [base64.b64decode] takes ASCII text only and
    raises [ValueError] on any other, and [encode] refuses a surrogate;
    [None] is no argument for the decoder and has no [encode] method. *)
Definition get_raw_body `{Runtime} (event : LambdaEvent) : result (list byte) :=
  let body := match ev_body event with BodyMissing => BodyText EmptyString | b => b end in
  if ev_isBase64Encoded event then
    match body with
    | BodyText s => b64decode s
    | BodyLoneText _ => Raise ValueError
    | _ => Raise TypeError
    end
  else
    match body with
    | BodyText s => Ok (PyStr.encode_utf8 s)
    | BodyLoneText _ => Raise UnicodeEncodeError
    | _ => Raise AttributeError
    end.

(** [sha256_token(value)]: [None] for a false value, else the digest of the
    stripped, lowered text. A true value that is not a [str] has no usable
    [strip] method. On a string that holds a lone surrogate, [strip] (which
    removes white space only) and [lower] (which maps a surrogate to itself)
    leave the surrogate in, and [encode] raises on it. *)
Definition sha256_token `{Runtime} (value : PyVal) : result (option string) :=
  if negb (truthy value) then Ok None
  else
    match value with
    | PStr s =>
        let value := py_lower (PyStr.strip s) in
        Ok (Some (SHA256.hexdigest (SHA256.sha256 (PyStr.encode_utf8 value))))
    | PLoneStr _ => Raise UnicodeEncodeError
    | PDict d =>
        match d !! "strip" with
        | Some _ => Raise TypeError
        | None => Raise AttributeError
        end
    | _ => Raise AttributeError
    end.

Definition of_token (t : option string) : PyVal :=
  match t with Some s => PStr s | None => PNone end.

(** ** Field derivation (step 3 of the handler, lines 56 to 107) *)

(** [a or b] with [b] evaluated only when [a] is false. *)
Definition lazy_or (a b : result PyVal) : result PyVal :=
  x ← a; if truthy x then mret x else b.

(** [(stripe_event.get("data") or {}).get("object") or {}] *)
Definition event_object (stripe_event : gmap string PyVal) : result PyVal :=
  o ← py_get (py_or (dict_get stripe_event "data") (PDict ∅)) "object";
  mret (py_or o (PDict ∅)).

(** [obj.get("amount_received") or obj.get("amount") or obj.get("amount_total") or 0] *)
Definition amount_minor (obj : PyVal) : result PyVal :=
  lazy_or (py_get obj "amount_received")
    (lazy_or (py_get obj "amount")
       (lazy_or (py_get obj "amount_total") (Ok (PInt 0)))).

(** [obj.get("payment_intent") if obj.get("object") != "payment_intent" else obj.get("id")] *)
Definition payment_intent_id (obj : PyVal) : result PyVal :=
  tag ← py_get obj "object";
  if py_ne_str tag "payment_intent" then py_get obj "payment_intent" else py_get obj "id".

(** [obj.get("charge") or obj.get("latest_charge")] *)
Definition charge_id (obj : PyVal) : result PyVal :=
  lazy_or (py_get obj "charge") (py_get obj "latest_charge").

(** The three statements that set [receipt_email]. *)
Definition receipt_email (obj : PyVal) : result PyVal :=
  receipt_email ← lazy_or (py_get obj "receipt_email") (py_get obj "customer_email");
  if negb (truthy receipt_email) then
    customer_details ← py_get obj "customer_details";
    let cust_details := py_or customer_details (PDict ∅) in
    py_get cust_details "email"
  else mret receipt_email.

(** From the verified event to the [normalized] dictionary (lines 56 to
    107 of [lambda_handler]); [received_at] is [int(time.time())]. *)
Definition normalize `{Runtime} (stripe_event : gmap string PyVal) (received_at : Z)
  : result PyVal :=
  obj ← event_object stripe_event;
  let event_type := dict_get stripe_event "type" in
  transaction_id ← py_get obj "id";
  customer_id ← py_get obj "customer";
  amount_minor ← amount_minor obj;
  currency ← py_get obj "currency";
  payment_intent_id ← payment_intent_id obj;
  charge_id ← charge_id obj;
  receipt_email ← receipt_email obj;
  status ← py_get obj "status";
  created ← py_get obj "created";
  email_token ← sha256_token receipt_email;
  customer_id_token ← sha256_token customer_id;
  mret (PDict {[
    "provider" := PStr "stripe";
    "source" := PStr "webhook";
    "event_id" := dict_get stripe_event "id";
    "event_type" := event_type;
    "received_at" := PInt received_at;
    "transaction" := PDict {[
      "transaction_id" := transaction_id;
      "amount_minor" := amount_minor;
      "currency" := currency;
      "status" := status;
      "created" := created ]};
    "pii" := PDict {[
      "email_token" := of_token email_token;
      "customer_id_token" := of_token customer_id_token ]};
    "refs" := PDict {[
      "payment_intent_id" := payment_intent_id;
      "charge_id" := charge_id;
      "customer_id" := customer_id ]} ]}).

(** ** The handler *)

Definition plain_response (code : Z) (text : string) : Response :=
  {| statusCode := code; headers := None; body := text |}.

(** [json.dumps({"ok": True})], the twelve characters [{"ok": true}]. *)
Definition json_ok : string :=
  String "{" (String "034" (String "o" (String "k" (String "034" ": true}")))).

Definition ok_response : Response :=
  {| statusCode := 200;
     headers := Some {[ "Content-Type" := "application/json" ]};
     body := json_ok |}.

(** Truth value of an optional [str] ([dict.get] of a mapping of strings). *)
Definition str_truthy (o : option string) : bool :=
  match o with
  | Some s => negb (is_empty_string s)
  | None => false
  end.

Definition str_or (a b : option string) : option string :=
  if str_truthy a then a else b.

(** [if not v: absent  ... else: present v] *)
Definition if_not {X} (v : option string) (absent : X) (present : string -> X) : X :=
  match v with
  | Some s => if is_empty_string s then absent else present s
  | None => absent
  end.

(** [headers.get("stripe-signature") or headers.get("Stripe-Signature")]
    with [headers = event.get("headers") or {}]. *)
Definition signature_header (event : LambdaEvent) : option string :=
  let headers := default ∅ (ev_headers event) in
  str_or (headers !! "stripe-signature") (headers !! "Stripe-Signature").

(** [lambda_handler(event, context)] run with environment [environ] at
    time [now] (seconds); [context] is not read. *)
Definition lambda_handler `{Runtime}
  (environ : gmap string string) (now : Z) (event : LambdaEvent) : Exec Response :=
  let endpoint_secret := environ !! "STRIPE_WEBHOOK_SECRET" in
  if_not endpoint_secret
    (mret (plain_response 500 "Missing STRIPE_WEBHOOK_SECRET env"))
    (fun endpoint_secret =>
  let sig_header := signature_header event in
  if_not sig_header
    (mret (plain_response 400 "Missing stripe-signature header"))
    (fun sig_header =>
  payload ← lift (get_raw_body event);
  verdict ← call_construct_event payload sig_header endpoint_secret;
  match verdict with
  | SignatureVerificationError =>
      print InvalidSignatureLine;;
      mret (plain_response 401 "Invalid signature")
  | OtherException e =>
      print (VerifyErrorLine e);;
      mret (plain_response 500 e)
  | Verified stripe_event =>
      print ValidWebhookLine;;
      print (EventIdLine (dict_get stripe_event "id"));;
      print (EventTypeLine (dict_get stripe_event "type"));;
      normalized ← lift (normalize stripe_event now);
      print (NormalizedJsonLine normalized);;
      mret ok_response
  end)).

(** ** Observations on a run *)

(** The normalized documents printed along a trace, in order. *)
Fixpoint emitted_documents (t : list Effect) : list PyVal :=
  match t with
  | [] => []
  | Print (NormalizedJsonLine doc) :: t' => doc :: emitted_documents t'
  | _ :: t' => emitted_documents t'
  end.

(** The status code of the response, when the handler returns one. *)
Definition status (run : Exec Response) : option Z :=
  match outcome run with
  | Ok r => Some (statusCode r)
  | Raise _ => None
  end.

(** The SDK verifier was called along the trace. *)
Definition verification_attempted (t : list Effect) : Prop :=
  exists payload sig_header secret, In (CallConstructEvent payload sig_header secret) t.

(** [normalized[section][key]] *)
Definition doc_field (doc : PyVal) (section key : string) : option PyVal :=
  match doc with
  | PDict d =>
      match d !! section with
      | Some (PDict s) => s !! key
      | _ => None
      end
  | _ => None
  end.

(** The sixteen characters of a lower-case hexadecimal digest. *)
Definition is_hex_char (c : ascii) : Prop :=
  In c (list_ascii_of_string "0123456789abcdef").

(** The first value of [vs] that is true in Python's sense, [dflt] when
    there is none: the "first non-empty / non-zero value" of the
    specification. *)
Fixpoint first_truthy (vs : list PyVal) (dflt : PyVal) : PyVal :=
  match vs with
  | [] => dflt
  | v :: vs' => if truthy v then v else first_truthy vs' dflt
  end.

(** A mapping, or a false value (which [or {}] replaces by a mapping). *)
Definition mapping_or_false (v : PyVal) : bool :=
  match v with
  | PDict _ => true
  | _ => negb (truthy v)
  end.

(** A [str] that has a UTF-8 encoding, or a false value. *)
Definition str_or_false (v : PyVal) : bool :=
  match v with
  | PStr _ => true
  | _ => negb (truthy v)
  end.

(** The [email] entry of the object's [customer_details] mapping, [None]
    when there is no such mapping or no such entry. *)
Definition nested_email (o : gmap string PyVal) : PyVal :=
  match dict_get o "customer_details" with
  | PDict cust_details => dict_get cust_details "email"
  | _ => PNone
  end.

(** The request carries the provider's signature header under some casing
    of its name: the case-insensitive lookup of the specification. *)
Definition has_signature_header_any_case (event : LambdaEvent) : Prop :=
  exists name value,
    default ∅ (ev_headers event) !! name = Some value /\
    PyStr.lower_ascii name = "stripe-signature"%string.

(** Neither spelling the handler reads carries a non-empty value. *)
Definition no_signature_value (event : LambdaEvent) : Prop :=
  let headers := default ∅ (ev_headers event) in
  str_truthy (headers !! "stripe-signature") = false /\
  str_truthy (headers !! "Stripe-Signature") = false.

(** The same request with another body. *)
Definition with_body (event : LambdaEvent) (b : Body) (base64 : bool) : LambdaEvent :=
  {| ev_headers := ev_headers event; ev_body := b; ev_isBase64Encoded := base64 |}.

(** A stand-in for the platform in examples: text with non-ASCII
    characters is left as it is by [lower], only the empty base64 text
    decodes, and the verifier answers by the signature it is shown. *)
Definition example_runtime (stripe_event : gmap string PyVal) : Runtime := {|
  unicode_lower := fun s => s;
  b64decode := fun s => if is_empty_string s then Ok [] else Raise ValueError;
  construct_event := fun _ sig_header _ =>
    if String.eqb sig_header "t=1,v1=valid" then Verified stripe_event
    else if String.eqb sig_header "t=1,v1=garbled" then OtherException "Expecting value"
    else SignatureVerificationError
|}.

Definition example_environ : gmap string string :=
  {[ "STRIPE_WEBHOOK_SECRET" := "whsec_test" ]}.

(** An environment without the secret. *)
Definition empty_environ : gmap string string := ∅.

(** An object without any field. *)
Definition empty_object : gmap string PyVal := ∅.

Definition example_request (name value : string) : LambdaEvent := {|
  ev_headers := Some {[ name := value ]};
  ev_body := BodyText "{}";
  ev_isBase64Encoded := false
|}.

(** The end-to-end scenario of the specification. *)
Definition checkout_object : gmap string PyVal :=
  {[ "id" := PStr "cs_1";
     "amount_total" := PInt 2500;
     "currency" := PStr "usd";
     "customer" := PStr "cus_1";
     "customer_details" := PDict {[ "email" := PStr "A@B.com" ]} ]}.

Definition checkout_event : gmap string PyVal :=
  {[ "id" := PStr "evt_1";
     "type" := PStr "checkout.session.completed";
     "data" := PDict {[ "object" := PDict checkout_object ]} ]}.

(** The platform stand-in that verifies the checkout event. *)
Definition example_sdk : Runtime := example_runtime checkout_event.

(** The objects of the amount scenario of the specification. *)
Definition amount_received_object : gmap string PyVal :=
  {[ "amount_received" := PInt 1000 ]}.

Definition zero_amount_object : gmap string PyVal :=
  {[ "amount_received" := PInt 0; "amount" := PNone; "amount_total" := PInt 2500 ]}.

(** A charge with a receipt address and a customer address. *)
Definition receipt_object : gmap string PyVal :=
  {[ "receipt_email" := PStr "pay@example.com";
     "customer_email" := PStr "other@example.com" ]}.


(** An object shaped like a billing credit grant: its [amount] is a mapping
    that holds the currency and the value, not a number. *)
Definition credit_grant_amount : PyVal :=
  PDict {[ "type" := PStr "monetary";
           "monetary" := PDict {[ "currency" := PStr "usd"; "value" := PInt 1000 ]} ]}.

Definition credit_grant_object : gmap string PyVal :=
  {[ "id" := PStr "credgr_1";
     "object" := PStr "billing.credit_grant";
     "amount" := credit_grant_amount;
     "customer" := PStr "cus_1" ]}.

Definition credit_grant_event : gmap string PyVal :=
  {[ "id" := PStr "evt_3";
     "type" := PStr "billing.credit_grant.created";
     "data" := PDict {[ "object" := PDict credit_grant_object ]} ]}.

(** An object whose three e-mail fields are present and empty. *)
Definition empty_emails_object : gmap string PyVal :=
  {[ "receipt_email" := PStr EmptyString;
     "customer_email" := PStr EmptyString;
     "customer_details" := PDict {[ "email" := PStr EmptyString ]} ]}.

(** The objects of the payment-intent scenario of the specification. *)
Definition payment_intent_object : gmap string PyVal :=
  {[ "object" := PStr "payment_intent";
     "id" := PStr "pi_1";
     "payment_intent" := PStr "pi_other" ]}.

Definition charge_object : gmap string PyVal :=
  {[ "object" := PStr "charge"; "id" := PStr "ch_3"; "payment_intent" := PStr "pi_2" ]}.

(** The event has the shape the field derivation relies on: [data] and
    [data.object] are mappings (or false), the customer id is a string with
    a UTF-8 encoding (or false), and so is the e-mail address the derivation
    selects, the [customer_details] it may look into being a mapping (or
    false). *)
Definition well_shaped (stripe_event : gmap string PyVal) : bool :=
  match event_object stripe_event with
  | Ok (PDict o) =>
      str_or_false (dict_get o "customer") &&
      (let email := py_or (dict_get o "receipt_email") (dict_get o "customer_email") in
       if truthy email then str_or_false email
       else mapping_or_false (dict_get o "customer_details") &&
            str_or_false (nested_email o))
  | _ => false
  end.

(** The three prints that follow a successful verification. *)
Definition valid_lines (stripe_event : gmap string PyVal) : list Effect :=
  [ Print ValidWebhookLine;
    Print (EventIdLine (dict_get stripe_event "id"));
    Print (EventTypeLine (dict_get stripe_event "type")) ].

(** Signature verification succeeds on the request: the secret is
    configured, the request carries a signature under one of the two
    spellings, its body decodes, and the SDK verifier, given the decoded
    body, that signature and the secret, returns [stripe_event]. *)
Definition verification_succeeds `{Runtime} (environ : gmap string string)
    (event : LambdaEvent) (stripe_event : gmap string PyVal) : Prop :=
  exists secret sig_header payload,
    environ !! "STRIPE_WEBHOOK_SECRET" = Some secret /\ secret <> EmptyString /\
    signature_header event = Some sig_header /\ sig_header <> EmptyString /\
    get_raw_body event = Ok payload /\
    construct_event payload sig_header secret = Verified stripe_event.

(** An object without e-mail address whose [customer_details] is a text,
    not a mapping, and a signed event that carries it. *)
Definition text_details_object : gmap string PyVal :=
  {[ "id" := PStr "cs_2"; "customer_details" := PStr "guest" ]}.

Definition text_details_event : gmap string PyVal :=
  {[ "id" := PStr "evt_5";
     "type" := PStr "checkout.session.completed";
     "data" := PDict {[ "object" := PDict text_details_object ]} ]}.

(** An object whose receipt address is there and whose [customer_details]
    is a text. *)
Definition receipt_and_text_details_object : gmap string PyVal :=
  {[ "receipt_email" := PStr "pay@example.com";
     "customer_details" := PStr "guest" ]}.

(** A signed event whose customer address holds a lone surrogate, the
    bytes ED A0 80 standing for U+D800. *)
Definition lone_surrogate_email : PyVal :=
  PLoneStr (String (ascii_of_N 0xED) (String (ascii_of_N 0xA0)
             (String (ascii_of_N 0x80) "x@y.z"))).

Definition lone_surrogate_event : gmap string PyVal :=
  {[ "id" := PStr "evt_6";
     "type" := PStr "charge.succeeded";
     "data" := PDict {[
       "object" := PDict {[ "id" := PStr "ch_2";
                            "receipt_email" := lone_surrogate_email ]} ]} ]}.

(** ** Further observations and example inputs *)

(** [normalized[key]] *)
Definition doc_top (doc : PyVal) (key : string) : option PyVal :=
  match doc with
  | PDict d => d !! key
  | _ => None
  end.

(** The keys of the document, and of one of its sections. *)
Definition doc_keys (doc : PyVal) : option (gset string) :=
  match doc with
  | PDict d => Some (dom d)
  | _ => None
  end.

Definition section_keys (doc : PyVal) (section : string) : option (gset string) :=
  match doc_top doc section with
  | Some (PDict s) => Some (dom s)
  | _ => None
  end.

(** The statuses the handler answers with. *)
Definition handler_statuses : list Z := [200; 400; 401; 500]%Z.

(** The event carries no object: [data] is false, or a mapping whose
    [object] is false. *)
Definition has_no_object (stripe_event : gmap string PyVal) : bool :=
  match dict_get stripe_event "data" with
  | PDict d => negb (truthy (PDict d)) || negb (truthy (dict_get d "object"))
  | v => negb (truthy v)
  end.

(** A signed request whose body is null. *)
Definition null_body_request : LambdaEvent := {|
  ev_headers := Some {[ "Stripe-Signature" := "t=1,v1=valid" ]};
  ev_body := BodyNull;
  ev_isBase64Encoded := false
|}.

(** A request that carries the signature under both spellings. *)
Definition both_spellings_request : LambdaEvent := {|
  ev_headers := Some {[ "stripe-signature" := "t=1,v1=forged";
                        "Stripe-Signature" := "t=1,v1=valid" ]};
  ev_body := BodyText "{}";
  ev_isBase64Encoded := false
|}.

(** A verified event without [data]. *)
Definition bare_event : gmap string PyVal :=
  {[ "id" := PStr "evt_4"; "type" := PStr "ping" ]}.

(** The time of the example runs. *)
Definition example_now : Z := 1700000000.

(** A request with the signature the example verifier accepts. *)
Definition valid_request : LambdaEvent :=
  example_request "Stripe-Signature" "t=1,v1=valid".

(** An ASCII letter, the bytes [lower] may change in ASCII text. *)
Definition ascii_letter (c : ascii) : bool :=
  let n := N_of_ascii c in
  (((65 <=? n) && (n <=? 90)) || ((97 <=? n) && (n <=? 122)))%N.

(** Text of ASCII characters only. *)
Definition is_ascii_text (s : string) : bool :=
  forallb PyStr.is_ascii (list_ascii_of_string s).

(** * Properties *)

(** ** Tokens *)

Lemma length_string_of_list_ascii (l : list ascii) :
  String.length (string_of_list_ascii l) = length l.
Proof. induction l as [|a l IH]; simpl; congruence. Qed.

Lemma hex8_length (w : N) : length (SHA256.hex8 w) = 8.
Proof. reflexivity. Qed.

Lemma hex_digit_is_hex (n : N) : is_hex_char (SHA256.hex_digit n).
Proof.
  unfold is_hex_char, SHA256.hex_digit.
  destruct (nth_in_or_default (N.to_nat (N.land n 15))
              (list_ascii_of_string "0123456789abcdef") "0"%char) as [Hin | ->].
  - exact Hin.
  - simpl. auto.
Qed.

Lemma hex8_is_hex (w : N) : Forall is_hex_char (SHA256.hex8 w).
Proof.
  unfold SHA256.hex8. simpl.
  repeat (constructor; [apply hex_digit_is_hex|]). constructor.
Qed.

(** The hexadecimal digest is 64 lower-case hexadecimal characters, whatever
    was hashed. *)
Lemma hexdigest_fixed_length (r : SHA256.regs) :
  String.length (SHA256.hexdigest r) = 64
  /\ Forall is_hex_char (list_ascii_of_string (SHA256.hexdigest r)).
Proof.
  unfold SHA256.hexdigest. split.
  - rewrite length_string_of_list_ascii, !length_app, !hex8_length. reflexivity.
  - rewrite list_ascii_of_string_of_list_ascii.
    repeat (apply Forall_app; split); apply hex8_is_hex.
Qed.

Example sha256_abc :
  SHA256.hexdigest (SHA256.sha256 (PyStr.encode_utf8 "abc"))
  = "ba7816bf8f01cfea414140de5dae2223b00361a396177a9cb410ff61f20015ad"%string.
Proof. vm_compute. reflexivity. Qed.

Example sha256_two_blocks :
  SHA256.hexdigest
    (SHA256.sha256
       (PyStr.encode_utf8 "abcdbcdecdefdefgefghfghighijhijkijkljklmklmnlmnomnopnopq"))
  = "248d6a61d20638b8e5c026930c3e6039a33ce45964ff2167f6ecedd419db06c1"%string.
Proof. vm_compute. reflexivity. Qed.

Example strip_unicode_spaces :
  PyStr.strip
    (String "009" (" Foo@Bar.com "
       ++ String "194" (String "160" (String "010" EmptyString))))
  = "Foo@Bar.com"%string.
Proof. vm_compute. reflexivity. Qed.

Example json_ok_text :
  list_ascii_of_string json_ok
  = ["{"; "034"; "o"; "k"; "034"; ":"; " "; "t"; "r"; "u"; "e"; "}"]%char.
Proof. reflexivity. Qed.

Section Tokens.
Context `{Runtime}.

(** A string of spaces is not empty: it gets a token, the digest of the
    empty text it is stripped to. *)
Example sha256_token_of_spaces :
  sha256_token (PStr "   ")
  = Ok (Some "e3b0c44298fc1c149afbf4c8996fb92427ae41e4649b934ca495991b7852b855"%string).
Proof. vm_compute. reflexivity. Qed.


End Tokens.

(** ** Field derivation *)

Section Fields.
Context `{Runtime}.

Lemma py_or_empty_mapping (v : PyVal) :
  mapping_or_false v = true ->
  exists d, py_or v (PDict ∅) = PDict d /\
            forall k, dict_get d k = match v with PDict m => dict_get m k | _ => PNone end.
Proof.
  intros Hv. destruct (truthy v) eqn:E.
  - destruct v as [| | | | | | |m]; simpl in Hv, E; try congruence;
      try (rewrite E in Hv; discriminate).
    exists m. unfold py_or. simpl. rewrite E. split; reflexivity.
  - exists ∅. unfold py_or. rewrite E. split; [reflexivity|].
    intros k. destruct v as [| | | | | | |d]; try reflexivity.
    simpl in E. apply negb_false_iff, Nat.eqb_eq, map_size_empty_iff in E.
    subst d. reflexivity.
Qed.

(** What a successful field derivation has computed. *)
Lemma normalize_ok stripe_event now doc :
  normalize stripe_event now = Ok doc ->
  exists o amount intent charge email email_token customer_id_token,
    event_object stripe_event = Ok (PDict o) /\
    amount_minor (PDict o) = Ok amount /\
    payment_intent_id (PDict o) = Ok intent /\
    charge_id (PDict o) = Ok charge /\
    receipt_email (PDict o) = Ok email /\
    sha256_token email = Ok email_token /\
    sha256_token (dict_get o "customer") = Ok customer_id_token /\
    doc_field doc "transaction" "amount_minor" = Some amount /\
    doc_field doc "refs" "payment_intent_id" = Some intent /\
    doc_field doc "refs" "charge_id" = Some charge /\
    doc_field doc "refs" "customer_id" = Some (dict_get o "customer") /\
    doc_field doc "pii" "email_token" = Some (of_token email_token) /\
    doc_field doc "pii" "customer_id_token" = Some (of_token customer_id_token).
Proof.
  unfold normalize. intros Hn.
  destruct (event_object stripe_event) as [obj|e]; [|discriminate]. simpl in Hn.
  destruct obj as [| | | | | | |o]; try discriminate. simpl in Hn.
  destruct (amount_minor (PDict o)) as [amount|e] eqn:Ea; [|discriminate].
  simpl in Hn.
  destruct (payment_intent_id (PDict o)) as [intent|e] eqn:Ei; [|discriminate].
  simpl in Hn.
  destruct (charge_id (PDict o)) as [charge|e] eqn:Ec; [|discriminate].
  simpl in Hn.
  destruct (receipt_email (PDict o)) as [email|e] eqn:Er; [|discriminate].
  simpl in Hn.
  destruct (sha256_token email) as [email_token|e] eqn:Et; [|discriminate].
  simpl in Hn.
  destruct (sha256_token (dict_get o "customer")) as [customer_id_token|e] eqn:Ek;
    [|discriminate].
  simpl in Hn. injection Hn as <-.
  exists o, amount, intent, charge, email, email_token, customer_id_token.
  repeat split; auto.
Qed.

Lemma amount_minor_value (o : gmap string PyVal) :
  amount_minor (PDict o)
  = Ok (first_truthy [dict_get o "amount_received"; dict_get o "amount";
                      dict_get o "amount_total"] (PInt 0)).
Proof.
  unfold amount_minor, lazy_or, py_get. simpl.
  repeat (match goal with |- context [truthy ?v] => destruct (truthy v) end;
          simpl; try reflexivity).
Qed.

(** [amount_minor] is the first non-empty, non-zero value among the object's
    [amount_received], [amount] and [amount_total], as it stands, and the
    integer 0 when there is none, in particular when the three are absent;
    this is the value the normalized record carries. *)
Lemma amount_minor_first_nonzero (o : gmap string PyVal) :
  let candidates :=
    [dict_get o "amount_received"; dict_get o "amount"; dict_get o "amount_total"] in
  amount_minor (PDict o) = Ok (first_truthy candidates (PInt 0))
  /\ (o !! "amount_received" = None -> o !! "amount" = None ->
      o !! "amount_total" = None -> amount_minor (PDict o) = Ok (PInt 0))
  /\ (forall stripe_event now doc,
        event_object stripe_event = Ok (PDict o) ->
        normalize stripe_event now = Ok doc ->
        doc_field doc "transaction" "amount_minor"
          = Some (first_truthy candidates (PInt 0))).
Proof.
  intros candidates. subst candidates.
  pose proof (amount_minor_value o) as Heq.
  split; [exact Heq | split].
  - intros H1 H2 H3. rewrite Heq. unfold dict_get. rewrite H1, H2, H3. reflexivity.
  - intros stripe_event now doc Hobj Hn.
    destruct (normalize_ok _ _ _ Hn)
      as (o' & amount & ? & ? & ? & ? & ? & Hobj' & Ha & _ & _ & _ & _ & _ & Hd & _).
    rewrite Hobj in Hobj'. injection Hobj' as <-.
    rewrite Heq in Ha. injection Ha as <-. exact Hd.
Qed.

Lemma py_ne_str_false (v : PyVal) (text : string) :
  py_ne_str v text = false <-> v = PStr text.
Proof.
  destruct v; simpl; split; try discriminate.
  - intros Hs. apply negb_false_iff, String.eqb_eq in Hs. congruence.
  - intros [= ->]. rewrite String.eqb_refl. reflexivity.
Qed.

(** C6. [payment_intent_id] is the object's own [id] when the object's type
    tag is ["payment_intent"], whatever its [payment_intent] field holds,
    and the object's [payment_intent] field otherwise; this is the value the
    normalized record carries under [refs]. *)
Theorem payment_intent_id_disambiguation (o : gmap string PyVal) :
  (dict_get o "object" = PStr "payment_intent" ->
     payment_intent_id (PDict o) = Ok (dict_get o "id"))
  /\ (dict_get o "object" <> PStr "payment_intent" ->
     payment_intent_id (PDict o) = Ok (dict_get o "payment_intent"))
  /\ (forall stripe_event now doc,
        event_object stripe_event = Ok (PDict o) ->
        normalize stripe_event now = Ok doc ->
        exists v, payment_intent_id (PDict o) = Ok v /\
                  doc_field doc "refs" "payment_intent_id" = Some v).
Proof.
  split; [|split].
  - intros Htag. unfold payment_intent_id. simpl. rewrite Htag. reflexivity.
  - intros Htag. unfold payment_intent_id. simpl.
    destruct (py_ne_str (dict_get o "object") "payment_intent") eqn:E; [reflexivity|].
    apply py_ne_str_false in E. contradiction.
  - intros stripe_event now doc Hobj Hn.
    destruct (normalize_ok _ _ _ Hn)
      as (o' & ? & intent & ? & ? & ? & ? & Hobj' & _ & Hi & _ & _ & _ & _ & _ & Hd & _).
    rewrite Hobj in Hobj'. injection Hobj' as <-. eauto.
Qed.

Lemma sha256_token_false (v : PyVal) :
  truthy v = false -> sha256_token v = Ok None.
Proof. intros Hv. unfold sha256_token. rewrite Hv. reflexivity. Qed.

Lemma receipt_email_fallback (o : gmap string PyVal) :
  mapping_or_false (dict_get o "customer_details") = true ->
  py_get (py_or (dict_get o "customer_details") (PDict ∅)) "email" = Ok (nested_email o).
Proof.
  intros Hcd. destruct (py_or_empty_mapping _ Hcd) as (d & -> & Hget).
  simpl. rewrite Hget. reflexivity.
Qed.

Lemma sha256_token_ok (v : PyVal) :
  is_ok (sha256_token v) = str_or_false v.
Proof.
  unfold sha256_token. destruct (truthy v) eqn:E; simpl.
  - destruct v as [| | | | | | |d]; simpl in *; rewrite ?E; try reflexivity.
    destruct (d !! "strip"); reflexivity.
  - destruct v; simpl in *; rewrite ?E; reflexivity.
Qed.

Lemma sha256_token_inv (v : PyVal) (t : option string) :
  sha256_token v = Ok t ->
  (truthy v = false /\ t = None) \/
  (exists a s, v = PStr (String a s) /\
     t = Some (SHA256.hexdigest
                 (SHA256.sha256 (PyStr.encode_utf8 (py_lower (PyStr.strip (String a s))))))).
Proof.
  unfold sha256_token. destruct (truthy v) eqn:E; simpl.
  - destruct v as [| | | |s| | |d]; try discriminate.
    + destruct s as [|a s]; [discriminate|]. intros [= <-]. right. eauto.
    + destruct (d !! "strip"); discriminate.
  - intros [= <-]. left. auto.
Qed.

Lemma py_or_not_mapping (v : PyVal) (k : string) :
  mapping_or_false v = false -> py_get (py_or v (PDict ∅)) k = Raise AttributeError.
Proof.
  intros Hv. assert (Ht : truthy v = true).
  { destruct v; simpl in Hv; try discriminate; try reflexivity;
      apply negb_false_iff in Hv; exact Hv. }
  unfold py_or. rewrite Ht. destruct v; try reflexivity. discriminate.
Qed.

Lemma receipt_email_raises (o : gmap string PyVal) :
  truthy (py_or (dict_get o "receipt_email") (dict_get o "customer_email")) = false ->
  mapping_or_false (dict_get o "customer_details") = false ->
  receipt_email (PDict o) = Raise AttributeError.
Proof.
  unfold receipt_email, lazy_or. simpl. intros Hrc Hcd. unfold py_or in Hrc.
  destruct (truthy (dict_get o "receipt_email")) eqn:Er; simpl; [congruence|].
  rewrite Hrc. simpl. apply py_or_not_mapping, Hcd.
Qed.

Lemma receipt_email_selected (o : gmap string PyVal) :
  truthy (py_or (dict_get o "receipt_email") (dict_get o "customer_email")) = true ->
  receipt_email (PDict o)
    = Ok (py_or (dict_get o "receipt_email") (dict_get o "customer_email")).
Proof.
  unfold receipt_email, lazy_or, py_or. simpl.
  destruct (truthy (dict_get o "receipt_email")) eqn:Er; simpl.
  - rewrite Er. reflexivity.
  - intros ->. reflexivity.
Qed.

Lemma receipt_email_nested (o : gmap string PyVal) :
  truthy (py_or (dict_get o "receipt_email") (dict_get o "customer_email")) = false ->
  mapping_or_false (dict_get o "customer_details") = true ->
  receipt_email (PDict o) = Ok (nested_email o).
Proof.
  unfold receipt_email, lazy_or, py_or. simpl. intros Hrc Hcd.
  destruct (truthy (dict_get o "receipt_email")) eqn:Er; simpl; [congruence|].
  rewrite Hrc. simpl. apply receipt_email_fallback, Hcd.
Qed.

(** What [receipt_email] is when the derivation gets it. *)
Lemma receipt_email_value (o : gmap string PyVal) (email : PyVal) :
  receipt_email (PDict o) = Ok email ->
  email = first_truthy [dict_get o "receipt_email"; dict_get o "customer_email";
                        nested_email o] (nested_email o).
Proof.
  intros Hemail.
  destruct (truthy (py_or (dict_get o "receipt_email") (dict_get o "customer_email")))
    eqn:Esel.
  - rewrite (receipt_email_selected o Esel) in Hemail. injection Hemail as <-.
    unfold py_or in *. simpl.
    destruct (truthy (dict_get o "receipt_email")) eqn:Er; [reflexivity|].
    rewrite Esel. reflexivity.
  - destruct (mapping_or_false (dict_get o "customer_details")) eqn:Ecd.
    + rewrite (receipt_email_nested o Esel Ecd) in Hemail. injection Hemail as <-.
      unfold py_or in Esel. simpl.
      destruct (truthy (dict_get o "receipt_email")) eqn:Er; [congruence|].
      rewrite Esel. destruct (truthy (nested_email o)); reflexivity.
    + rewrite (receipt_email_raises o Esel Ecd) in Hemail. discriminate.
Qed.

(** C7, as the handler has it. [receipt_email] is the object's
    [receipt_email] when that is non-empty, else its [customer_email] when
    that is non-empty, whatever [customer_details] holds; only when both are
    absent or empty is [customer_details] looked into, and for a mapping (or
    an absent or empty value) the result is the [email] inside it. So it is
    the first non-empty value among the three; when none is non-empty it is
    a false value (the nested one as it stands, [None] when the three are
    absent), for which no token is made: the record's [email_token] is
    [None]. *)
Theorem receipt_email_first_nonempty (o : gmap string PyVal) :
  let r := dict_get o "receipt_email" in
  let c := dict_get o "customer_email" in
  let e := nested_email o in
  (truthy r = true -> receipt_email (PDict o) = Ok r)
  /\ (truthy r = false -> truthy c = true -> receipt_email (PDict o) = Ok c)
  /\ (truthy r = false -> truthy c = false ->
      mapping_or_false (dict_get o "customer_details") = true ->
      receipt_email (PDict o) = Ok e
      /\ (truthy e = false -> sha256_token e = Ok None))
  /\ (truthy r = true \/ truthy c = true
      \/ mapping_or_false (dict_get o "customer_details") = true ->
      receipt_email (PDict o) = Ok (first_truthy [r; c; e] e))
  /\ (o !! "receipt_email" = None -> o !! "customer_email" = None ->
      o !! "customer_details" = None -> receipt_email (PDict o) = Ok PNone)
  /\ (forall stripe_event now doc,
        event_object stripe_event = Ok (PDict o) ->
        normalize stripe_event now = Ok doc ->
        exists token,
          receipt_email (PDict o) = Ok (first_truthy [r; c; e] e)
          /\ sha256_token (first_truthy [r; c; e] e) = Ok token
          /\ doc_field doc "pii" "email_token" = Some (of_token token)
          /\ (truthy r = false -> truthy c = false -> truthy e = false ->
              doc_field doc "pii" "email_token" = Some PNone)).
Proof.
  intros r c e.
  assert (Hr : truthy r = true -> receipt_email (PDict o) = Ok r).
  { intros Er. assert (Hsel : py_or r c = r) by (unfold py_or; rewrite Er; reflexivity).
    pose proof (receipt_email_selected o) as Hs. fold r c in Hs.
    rewrite Hsel in Hs. exact (Hs Er). }
  assert (Hc : truthy r = false -> truthy c = true -> receipt_email (PDict o) = Ok c).
  { intros Er Ec.
    assert (Hsel : py_or r c = c) by (unfold py_or; rewrite Er; reflexivity).
    pose proof (receipt_email_selected o) as Hs. fold r c in Hs.
    rewrite Hsel in Hs. exact (Hs Ec). }
  assert (He : truthy r = false -> truthy c = false ->
               mapping_or_false (dict_get o "customer_details") = true ->
               receipt_email (PDict o) = Ok e).
  { intros Er Ec Hcd.
    assert (Hsel : py_or r c = c) by (unfold py_or; rewrite Er; reflexivity).
    pose proof (receipt_email_nested o) as Hs. fold r c e in Hs.
    rewrite Hsel in Hs. exact (Hs Ec Hcd). }
  split; [exact Hr|]. split; [exact Hc|]. split; [|split; [|split]].
  - intros Er Ec Hcd. split; [exact (He Er Ec Hcd) | apply sha256_token_false].
  - intros Hsel. simpl.
    destruct (truthy r) eqn:Er; [exact (Hr eq_refl)|].
    destruct (truthy c) eqn:Ec; [exact (Hc eq_refl eq_refl)|].
    destruct Hsel as [Hsel | [Hsel | Hcd]]; try discriminate.
    rewrite (He eq_refl eq_refl Hcd). destruct (truthy e); reflexivity.
  - intros Hnr Hnc Hnd. rewrite He.
    + subst e. unfold nested_email, dict_get. rewrite Hnd. reflexivity.
    + subst r. unfold dict_get. rewrite Hnr. reflexivity.
    + subst c. unfold dict_get. rewrite Hnc. reflexivity.
    + unfold dict_get. rewrite Hnd. reflexivity.
  - intros stripe_event now doc Hobj Hn.
    destruct (normalize_ok _ _ _ Hn)
      as (o' & ? & ? & ? & email & et & ?
          & Hobj' & _ & _ & _ & Hemail & Het & _ & _ & _ & _ & _ & Hde & _).
    rewrite Hobj in Hobj'. injection Hobj' as <-.
    pose proof (receipt_email_value _ _ Hemail) as Hvalue. fold r c e in Hvalue.
    subst email. exists et. split; [exact Hemail|]. split; [exact Het|].
    split; [exact Hde|]. intros Er Ec Ee. rewrite Hde.
    simpl in Het. rewrite Er, Ec, Ee in Het.
    rewrite (sha256_token_false _ Ee) in Het. injection Het as <-. reflexivity.
Qed.

(** The field derivation raises nothing exactly on well-shaped events. *)
Lemma normalize_ok_iff_well_shaped stripe_event now :
  is_ok (normalize stripe_event now) = well_shaped stripe_event.
Proof.
  unfold normalize, well_shaped.
  destruct (event_object stripe_event) as [obj|e]; [|reflexivity]. simpl.
  destruct obj as [| | | | | | |o]; try reflexivity. simpl.
  rewrite amount_minor_value. simpl.
  assert (Hi : exists v, payment_intent_id (PDict o) = Ok v).
  { unfold payment_intent_id. simpl. destruct (py_ne_str _ _); eauto. }
  destruct Hi as (intent & ->). simpl.
  assert (Hc : exists v, charge_id (PDict o) = Ok v).
  { unfold charge_id, lazy_or. simpl. destruct (truthy _); eauto. }
  destruct Hc as (charge & ->). simpl.
  destruct (truthy (py_or (dict_get o "receipt_email") (dict_get o "customer_email")))
    eqn:Esel.
  - rewrite (receipt_email_selected o Esel). simpl.
    rewrite <- !sha256_token_ok.
    destruct (sha256_token (py_or _ _)); simpl; [|rewrite andb_false_r; reflexivity].
    destruct (sha256_token (dict_get o "customer")); reflexivity.
  - destruct (mapping_or_false (dict_get o "customer_details")) eqn:Ecd.
    + rewrite (receipt_email_nested o Esel Ecd). simpl.
      rewrite <- !sha256_token_ok.
      destruct (sha256_token (nested_email o)); simpl;
        [|rewrite andb_false_r; reflexivity].
      destruct (sha256_token (dict_get o "customer")); reflexivity.
    + rewrite (receipt_email_raises o Esel Ecd). simpl.
      rewrite andb_false_r. reflexivity.
Qed.

(** Each entry of the [pii] section of a normalized document is [None] or
    the SHA-256 token of a non-empty string of the event. *)
Lemma normalize_pii_tokens stripe_event now doc :
  normalize stripe_event now = Ok doc ->
  forall key, key = "email_token"%string \/ key = "customer_id_token"%string ->
  exists v, doc_field doc "pii" key = Some v /\
    (v = PNone \/
     exists a s, v = PStr (SHA256.hexdigest (SHA256.sha256
                   (PyStr.encode_utf8 (py_lower (PyStr.strip (String a s))))))).
Proof.
  intros Hn key Hkey.
  destruct (normalize_ok _ _ _ Hn)
    as (o & ? & ? & ? & email & et & ct
        & _ & _ & _ & _ & _ & Het & Hct & _ & _ & _ & _ & Hde & Hdc).
  destruct Hkey as [-> | ->].
  - exists (of_token et). split; [exact Hde|].
    destruct (sha256_token_inv _ _ Het) as [[_ ->] | (a & s & _ & ->)];
      [left; reflexivity | right; eauto].
  - exists (of_token ct). split; [exact Hdc|].
    destruct (sha256_token_inv _ _ Hct) as [[_ ->] | (a & s & _ & ->)];
      [left; reflexivity | right; eauto].
Qed.

End Fields.

(** ** The handler *)

Section Handler.
Context `{Runtime}.

Lemma if_not_absent {X} (v : option string) (a : X) (p : string -> X) :
  str_truthy v = false -> if_not v a p = a.
Proof.
  destruct v as [s|]; simpl; [|reflexivity].
  destruct (is_empty_string s); simpl; [reflexivity | discriminate].
Qed.

Lemma if_not_present {X} (v : option string) (a : X) (p : string -> X) :
  str_truthy v = true -> exists s, v = Some s /\ s <> EmptyString /\ if_not v a p = p s.
Proof.
  destruct v as [s|]; simpl; [|discriminate].
  destruct s; simpl; [discriminate|].
  intros _. eexists. repeat split. discriminate.
Qed.

(** Every run of the handler, by the checks it passes. *)
Lemma lambda_handler_run environ now event :
  lambda_handler environ now event =
  if_not (environ !! "STRIPE_WEBHOOK_SECRET")
    (MkExec [] (Ok (plain_response 500 "Missing STRIPE_WEBHOOK_SECRET env")))
    (fun secret =>
  if_not (signature_header event)
    (MkExec [] (Ok (plain_response 400 "Missing stripe-signature header")))
    (fun sig_header =>
  match get_raw_body event with
  | Raise e => MkExec [] (Raise e)
  | Ok payload =>
      let call := CallConstructEvent payload sig_header secret in
      match construct_event payload sig_header secret with
      | SignatureVerificationError =>
          MkExec [call; Print InvalidSignatureLine]
                 (Ok (plain_response 401 "Invalid signature"))
      | OtherException msg =>
          MkExec [call; Print (VerifyErrorLine msg)] (Ok (plain_response 500 msg))
      | Verified stripe_event =>
          match normalize stripe_event now with
          | Raise e => MkExec (call :: valid_lines stripe_event) (Raise e)
          | Ok doc =>
              MkExec (call :: valid_lines stripe_event ++ [Print (NormalizedJsonLine doc)])
                     (Ok ok_response)
          end
      end
  end)).
Proof.
  unfold lambda_handler.
  destruct (environ !! "STRIPE_WEBHOOK_SECRET") as [secret|]; simpl; [|reflexivity].
  destruct (is_empty_string secret); [reflexivity|].
  destruct (signature_header event) as [sig_header|]; simpl; [|reflexivity].
  destruct (is_empty_string sig_header); [reflexivity|].
  destruct (get_raw_body event) as [payload|e]; [|reflexivity].
  unfold mbind, Exec_bind, lift, print, call_construct_event; simpl.
  destruct (construct_event payload sig_header secret) as [stripe_event| |msg];
    simpl; try reflexivity.
  destruct (normalize stripe_event now) as [doc|e]; reflexivity.
Qed.

Lemma lambda_handler_verifying environ now event secret sig_header :
  environ !! "STRIPE_WEBHOOK_SECRET" = Some secret -> secret <> EmptyString ->
  signature_header event = Some sig_header -> sig_header <> EmptyString ->
  lambda_handler environ now event =
  match get_raw_body event with
  | Raise e => MkExec [] (Raise e)
  | Ok payload =>
      let call := CallConstructEvent payload sig_header secret in
      match construct_event payload sig_header secret with
      | SignatureVerificationError =>
          MkExec [call; Print InvalidSignatureLine]
                 (Ok (plain_response 401 "Invalid signature"))
      | OtherException msg =>
          MkExec [call; Print (VerifyErrorLine msg)] (Ok (plain_response 500 msg))
      | Verified stripe_event =>
          match normalize stripe_event now with
          | Raise e => MkExec (call :: valid_lines stripe_event) (Raise e)
          | Ok doc =>
              MkExec (call :: valid_lines stripe_event ++ [Print (NormalizedJsonLine doc)])
                     (Ok ok_response)
          end
      end
  end.
Proof.
  intros Hsecret Hne Hsig Hsne. rewrite lambda_handler_run, Hsecret, Hsig.
  destruct secret; [congruence|]. destruct sig_header; [congruence|]. reflexivity.
Qed.

Lemma not_attempted_nil : ~ verification_attempted [].
Proof. intros (p & s & k & []). Qed.

(** C4. When the shared secret is absent from the environment, the handler
    returns HTTP 500 at once, whatever the request's headers, body and
    signature are and whatever the verifier would answer: the run has no
    effect at all, so the verifier is not called. *)
Theorem missing_secret_returns_500 environ now event :
  environ !! "STRIPE_WEBHOOK_SECRET" = None ->
  lambda_handler environ now event
    = MkExec [] (Ok (plain_response 500 "Missing STRIPE_WEBHOOK_SECRET env"))
  /\ status (lambda_handler environ now event) = Some 500%Z
  /\ ~ verification_attempted (trace (lambda_handler environ now event)).
Proof.
  intros Hnone. rewrite lambda_handler_run, Hnone. simpl.
  repeat split. apply not_attempted_nil.
Qed.

(** The verifier is called at most once, on the decoded body, the signature
    header and the secret. *)
Lemma verification_call environ now event secret sig_header payload :
  environ !! "STRIPE_WEBHOOK_SECRET" = Some secret ->
  signature_header event = Some sig_header ->
  In (CallConstructEvent payload sig_header secret)
     (trace (lambda_handler environ now event)) ->
  secret <> EmptyString /\ sig_header <> EmptyString /\ get_raw_body event = Ok payload.
Proof.
  intros Hsecret Hsig. rewrite lambda_handler_run, Hsecret, Hsig.
  destruct secret; [intros []|]. destruct sig_header; [intros []|]. simpl.
  destruct (get_raw_body event) as [payload'|e]; [|intros []].
  intros Hin. repeat split; try discriminate.
  destruct (construct_event payload' _ _) as [stripe_event| |msg].
  - destruct (normalize stripe_event now); simpl in Hin;
      destruct Hin as [[= ->]|Hin]; try reflexivity; intuition discriminate.
  - destruct Hin as [[= ->]|Hin]; [reflexivity | simpl in Hin; intuition discriminate].
  - destruct Hin as [[= ->]|Hin]; [reflexivity | simpl in Hin; intuition discriminate].
Qed.

(** C3. With the secret configured and the signature header present, when
    the verifier the handler calls raises [SignatureVerificationError] the
    handler prints the opaque failure note only and returns HTTP 401, no
    normalized event being built or emitted; when it raises any other error
    the handler returns HTTP 500 with the error text as the body. *)
Theorem verification_errors_give_401_and_500 environ now event secret sig_header payload :
  environ !! "STRIPE_WEBHOOK_SECRET" = Some secret ->
  signature_header event = Some sig_header ->
  let run := lambda_handler environ now event in
  let call := CallConstructEvent payload sig_header secret in
  In call (trace run) ->
  (construct_event payload sig_header secret = SignatureVerificationError ->
     run = MkExec [call; Print InvalidSignatureLine]
                  (Ok (plain_response 401 "Invalid signature"))
     /\ status run = Some 401%Z
     /\ emitted_documents (trace run) = [])
  /\ (forall msg, construct_event payload sig_header secret = OtherException msg ->
     run = MkExec [call; Print (VerifyErrorLine msg)] (Ok (plain_response 500 msg))
     /\ status run = Some 500%Z
     /\ (exists r, outcome run = Ok r /\ body r = msg)
     /\ emitted_documents (trace run) = []).
Proof.
  intros Hsecret Hsig run call Hin. subst run call.
  destruct (verification_call _ _ _ _ _ _ Hsecret Hsig Hin) as (Hne & Hsne & Hbody).
  rewrite (lambda_handler_verifying _ _ _ _ _ Hsecret Hne Hsig Hsne), Hbody.
  split.
  - intros ->. simpl. repeat split.
  - intros msg ->. simpl. repeat split. eexists; split; reflexivity.
Qed.

Lemma signature_header_absent event :
  str_truthy (signature_header event) = false <-> no_signature_value event.
Proof.
  unfold signature_header, no_signature_value, str_or. simpl.
  destruct (str_truthy (default ∅ (ev_headers event) !! "stripe-signature")) eqn:E.
  - rewrite E. split; [discriminate | intros [? _]; discriminate].
  - split; [intros; split; auto | intros [_ ?]; auto].
Qed.

Lemma lambda_handler_no_signature environ now event secret :
  environ !! "STRIPE_WEBHOOK_SECRET" = Some secret -> secret <> EmptyString ->
  no_signature_value event ->
  lambda_handler environ now event
    = MkExec [] (Ok (plain_response 400 "Missing stripe-signature header")).
Proof.
  intros Hsecret Hne Hno. rewrite lambda_handler_run, Hsecret.
  destruct secret; [congruence|]. simpl.
  apply if_not_absent, signature_header_absent, Hno.
Qed.

(** C2, as the handler has it. With the secret configured, the handler
    returns HTTP 400 exactly when neither of the two spellings it reads,
    [stripe-signature] and [Stripe-Signature], carries a non-empty value;
    the 400 run is the same for every body. *)
Theorem missing_signature_returns_400 environ now event secret :
  environ !! "STRIPE_WEBHOOK_SECRET" = Some secret -> secret <> EmptyString ->
  (status (lambda_handler environ now event) = Some 400%Z <-> no_signature_value event)
  /\ (no_signature_value event ->
      forall b base64,
        lambda_handler environ now (with_body event b base64)
          = MkExec [] (Ok (plain_response 400 "Missing stripe-signature header"))).
Proof.
  intros Hsecret Hne. split; [split|].
  - intros H400. apply signature_header_absent.
    destruct (str_truthy (signature_header event)) eqn:E; [|reflexivity].
    exfalso. destruct (if_not_present (signature_header event) tt (fun _ => tt) E)
      as (sig_header & Hsig & Hsne & _).
    rewrite (lambda_handler_verifying _ _ _ _ _ Hsecret Hne Hsig Hsne) in H400.
    destruct (get_raw_body event); [|discriminate].
    destruct (construct_event _ _ _); try discriminate.
    destruct (normalize _ _); discriminate.
  - intros Hno. rewrite (lambda_handler_no_signature _ _ _ _ Hsecret Hne Hno).
    reflexivity.
  - intros Hno b base64.
    apply (lambda_handler_no_signature _ _ _ _ Hsecret Hne). exact Hno.
Qed.

(** C10, as the handler has it. With the secret configured, a request whose
    signature header is present with the empty string as its value, no
    spelling carrying a non-empty one, is answered like a request without
    the header: HTTP 400, not 401, and the verifier is not called. *)
Theorem empty_signature_returns_400 environ now event secret :
  environ !! "STRIPE_WEBHOOK_SECRET" = Some secret -> secret <> EmptyString ->
  (default ∅ (ev_headers event) !! "stripe-signature" = Some EmptyString \/
   default ∅ (ev_headers event) !! "Stripe-Signature" = Some EmptyString) ->
  no_signature_value event ->
  let run := lambda_handler environ now event in
  run = MkExec [] (Ok (plain_response 400 "Missing stripe-signature header"))
  /\ status run = Some 400%Z
  /\ status run <> Some 401%Z
  /\ ~ verification_attempted (trace run).
Proof.
  intros Hsecret Hne _ Hno run. subst run.
  rewrite (lambda_handler_no_signature _ _ _ _ Hsecret Hne Hno). simpl.
  repeat split; [discriminate | apply not_attempted_nil].
Qed.




End Handler.

(** ** Concrete runs *)

(** The end-to-end scenario of the specification: a verified
    [checkout.session.completed] event. *)
Example checkout_session_normalized :
  let run := @lambda_handler example_sdk example_environ 1700000000
               (example_request "Stripe-Signature" "t=1,v1=valid") in
  status run = Some 200%Z
  /\ exists doc,
       emitted_documents (trace run) = [doc]
       /\ doc_field doc "transaction" "amount_minor" = Some (PInt 2500)
       /\ doc_field doc "transaction" "currency" = Some (PStr "usd")
       /\ doc_field doc "pii" "email_token"
            = Some (of_token (Some (SHA256.hexdigest
                (SHA256.sha256 (PyStr.encode_utf8 "a@b.com")))))
       /\ doc_field doc "refs" "customer_id" = Some (PStr "cus_1").
Proof.
  split; [vm_compute; reflexivity|].
  eexists. split; [vm_compute; reflexivity|].
  repeat split; vm_compute; reflexivity.
Qed.


(** The same with an e-mail address that holds a lone surrogate: the event
    is not well shaped, as the address has no UTF-8 encoding to hash. *)
Example lone_surrogate_email_emits_nothing :
  let sdk := example_runtime lone_surrogate_event in
  let run := @lambda_handler sdk example_environ 0 valid_request in
  well_shaped lone_surrogate_event = false
  /\ @sha256_token sdk lone_surrogate_email = Raise UnicodeEncodeError
  /\ emitted_documents (trace run) = []
  /\ outcome run = Raise UnicodeEncodeError.
Proof. vm_compute. repeat split. Qed.

(** C2 fails as stated: the signature header is there under another casing
    of its name, and the handler answers 400. *)
Lemma uppercase_signature_header_gets_400 :
  let event := example_request "STRIPE-SIGNATURE" "t=1,v1=valid" in
  has_signature_header_any_case event
  /\ status (@lambda_handler example_sdk example_environ 0 event)
       = Some 400%Z.
Proof.
  split; [|vm_compute; reflexivity].
  exists "STRIPE-SIGNATURE"%string, "t=1,v1=valid"%string.
  split; vm_compute; reflexivity.
Qed.

(** C5. [amount_minor] is not always an integer, against the note the
    source carries on that entry of the record (keep as integer): on a
    verified [billing.credit_grant.created] event, whose object holds its
    [amount] as a mapping, that mapping is selected as [amount_minor] and
    printed in the normalized document, and the request is answered 200. *)
Theorem credit_grant_amount_is_not_an_integer :
  let sdk := example_runtime credit_grant_event in
  let run := @lambda_handler sdk example_environ example_now valid_request in
  @verification_succeeds sdk example_environ valid_request credit_grant_event
  /\ amount_minor (PDict credit_grant_object) = Ok credit_grant_amount
  /\ is_int credit_grant_amount = false
  /\ status run = Some 200%Z
  /\ exists doc,
       emitted_documents (trace run) = [doc]
       /\ doc_field doc "transaction" "amount_minor" = Some credit_grant_amount.
Proof.
  split; [|split; [|split; [|split]]].
  - exists "whsec_test"%string, "t=1,v1=valid"%string, (PyStr.encode_utf8 "{}").
    repeat split; try discriminate; vm_compute; reflexivity.
  - vm_compute. reflexivity.
  - reflexivity.
  - vm_compute. reflexivity.
  - eexists. split; vm_compute; reflexivity.
Qed.

(** C7 fails as stated: the object has no [receipt_email] and no
    [customer_email], its [customer_details] is a text, in which no [email]
    is nested, and [receipt_email] is not absent: looking into the text
    raises, and the run of the handler ends there, without a document and
    without a response. *)
Lemma text_customer_details_raises :
  let sdk := example_runtime text_details_event in
  let run := @lambda_handler sdk example_environ 0 valid_request in
  dict_get text_details_object "receipt_email" = PNone
  /\ dict_get text_details_object "customer_email" = PNone
  /\ dict_get text_details_object "customer_details" = PStr "guest"
  /\ receipt_email (PDict text_details_object) = Raise AttributeError
  /\ @verification_succeeds sdk example_environ valid_request text_details_event
  /\ emitted_documents (trace run) = []
  /\ outcome run = Raise AttributeError.
Proof.
  split; [|split; [|split; [|split; [|split]]]]; try (vm_compute; reflexivity).
  - exists "whsec_test"%string, "t=1,v1=valid"%string, (PyStr.encode_utf8 "{}").
    repeat split; try discriminate; vm_compute; reflexivity.
  - vm_compute. split; reflexivity.
Qed.

(** C10 fails as stated: without the secret in the environment, a request
    with an empty signature header is answered 500, not 400. *)
Lemma empty_signature_without_secret_gets_500 :
  let event := example_request "stripe-signature" EmptyString in
  default ∅ (ev_headers event) !! "stripe-signature" = Some EmptyString
  /\ empty_environ !! "STRIPE_WEBHOOK_SECRET" = None
  /\ status (@lambda_handler example_sdk empty_environ 0 event)
       = Some 500%Z
  /\ status (@lambda_handler example_sdk empty_environ 0 event)
       <> Some 400%Z.
Proof. vm_compute. repeat split. discriminate. Qed.

(** ** The theorems at concrete requests *)

Lemma missing_secret_witness :
  let event := example_request "Stripe-Signature" "t=1,v1=valid" in
  empty_environ !! "STRIPE_WEBHOOK_SECRET" = None
  /\ status (@lambda_handler example_sdk empty_environ 0 event) = Some 500%Z.
Proof.
  assert (Hnone : empty_environ !! "STRIPE_WEBHOOK_SECRET" = None)
    by (vm_compute; reflexivity).
  split; [exact Hnone|].
  destruct (@missing_secret_returns_500 example_sdk empty_environ 0%Z
              (example_request "Stripe-Signature" "t=1,v1=valid") Hnone)
    as (_ & Hstatus & _).
  exact Hstatus.
Defined.

Lemma verification_errors_witness :
  let forged := example_request "Stripe-Signature" "t=1,v1=forged" in
  let garbled := example_request "stripe-signature" "t=1,v1=garbled" in
  let payload := PyStr.encode_utf8 "{}" in
  (In (CallConstructEvent payload "t=1,v1=forged" "whsec_test")
      (trace (@lambda_handler example_sdk example_environ 0 forged))
   /\ status (@lambda_handler example_sdk example_environ 0 forged) = Some 401%Z
   /\ emitted_documents (trace (@lambda_handler example_sdk example_environ 0 forged)) = [])
  /\ (In (CallConstructEvent payload "t=1,v1=garbled" "whsec_test")
         (trace (@lambda_handler example_sdk example_environ 0 garbled))
      /\ exists r, outcome (@lambda_handler example_sdk example_environ 0 garbled) = Ok r
                   /\ body r = "Expecting value"%string).
Proof.
  assert (Hsecret : example_environ !! "STRIPE_WEBHOOK_SECRET" = Some "whsec_test"%string)
    by (vm_compute; reflexivity).
  assert (Hforged :
    signature_header (example_request "Stripe-Signature" "t=1,v1=forged")
    = Some "t=1,v1=forged"%string) by (vm_compute; reflexivity).
  assert (Hgarbled :
    signature_header (example_request "stripe-signature" "t=1,v1=garbled")
    = Some "t=1,v1=garbled"%string) by (vm_compute; reflexivity).
  assert (Hcall1 :
    In (CallConstructEvent (PyStr.encode_utf8 "{}") "t=1,v1=forged" "whsec_test")
       (trace (@lambda_handler example_sdk example_environ 0
                 (example_request "Stripe-Signature" "t=1,v1=forged"))))
    by (vm_compute; left; reflexivity).
  assert (Hcall2 :
    In (CallConstructEvent (PyStr.encode_utf8 "{}") "t=1,v1=garbled" "whsec_test")
       (trace (@lambda_handler example_sdk example_environ 0
                 (example_request "stripe-signature" "t=1,v1=garbled"))))
    by (vm_compute; left; reflexivity).
  split.
  - destruct (@verification_errors_give_401_and_500 example_sdk
                example_environ 0%Z (example_request "Stripe-Signature" "t=1,v1=forged")
                "whsec_test" "t=1,v1=forged" (PyStr.encode_utf8 "{}")
                Hsecret Hforged Hcall1)
      as [H401 _].
    destruct (H401 ltac:(reflexivity)) as (_ & Hstatus & Hdocs).
    repeat split; assumption.
  - destruct (@verification_errors_give_401_and_500 example_sdk
                example_environ 0%Z (example_request "stripe-signature" "t=1,v1=garbled")
                "whsec_test" "t=1,v1=garbled" (PyStr.encode_utf8 "{}")
                Hsecret Hgarbled Hcall2)
      as [_ H500].
    destruct (H500 "Expecting value"%string ltac:(reflexivity)) as (_ & _ & Hbody & _).
    split; [exact Hcall2 | exact Hbody].
Defined.

Lemma missing_signature_witness :
  let event := example_request "Content-Type" "application/json" in
  no_signature_value event
  /\ status (@lambda_handler example_sdk example_environ 0 event) = Some 400%Z
  /\ @lambda_handler example_sdk example_environ 0
       (with_body event (BodyText "tampered") true)
     = MkExec [] (Ok (plain_response 400 "Missing stripe-signature header")).
Proof.
  assert (Hsecret : example_environ !! "STRIPE_WEBHOOK_SECRET" = Some "whsec_test"%string)
    by (vm_compute; reflexivity).
  assert (Hno : no_signature_value (example_request "Content-Type" "application/json"))
    by (split; vm_compute; reflexivity).
  destruct (@missing_signature_returns_400 example_sdk example_environ 0%Z
              (example_request "Content-Type" "application/json")
              "whsec_test" Hsecret ltac:(discriminate))
    as [Hiff Hbody].
  split; [exact Hno|]. split.
  - apply Hiff, Hno.
  - apply Hbody, Hno.
Defined.

Lemma empty_signature_witness :
  let event := example_request "stripe-signature" EmptyString in
  default ∅ (ev_headers event) !! "stripe-signature" = Some EmptyString
  /\ status (@lambda_handler example_sdk example_environ 0 event) = Some 400%Z
  /\ ~ verification_attempted (trace (@lambda_handler example_sdk example_environ 0 event)).
Proof.
  assert (Hsecret : example_environ !! "STRIPE_WEBHOOK_SECRET" = Some "whsec_test"%string)
    by (vm_compute; reflexivity).
  assert (Hempty :
    default ∅ (ev_headers (example_request "stripe-signature" EmptyString))
      !! "stripe-signature" = Some EmptyString) by (vm_compute; reflexivity).
  assert (Hno : no_signature_value (example_request "stripe-signature" EmptyString))
    by (split; vm_compute; reflexivity).
  split; [exact Hempty|].
  destruct (@empty_signature_returns_400 example_sdk example_environ 0%Z
              (example_request "stripe-signature" EmptyString)
              "whsec_test" Hsecret ltac:(discriminate) (or_introl Hempty) Hno)
    as (_ & Hstatus & _ & Hcalls).
  split; assumption.
Defined.

Lemma receipt_email_witness :
  receipt_email (PDict receipt_object) = Ok (PStr "pay@example.com")
  /\ receipt_email (PDict receipt_and_text_details_object) = Ok (PStr "pay@example.com")
  /\ receipt_email (PDict checkout_object) = Ok (PStr "A@B.com")
  /\ @sha256_token example_sdk (nested_email empty_emails_object) = Ok None
  /\ receipt_email (PDict empty_object) = Ok PNone.
Proof.
  assert (H1 : truthy (dict_get receipt_object "receipt_email") = true)
    by (vm_compute; reflexivity).
  assert (H2 : truthy (dict_get receipt_and_text_details_object "receipt_email") = true)
    by (vm_compute; reflexivity).
  assert (H3 : mapping_or_false (dict_get checkout_object "customer_details") = true)
    by (vm_compute; reflexivity).
  assert (H4 : mapping_or_false (dict_get empty_emails_object "customer_details") = true)
    by (vm_compute; reflexivity).
  assert (H5 : truthy (nested_email empty_emails_object) = false)
    by (vm_compute; reflexivity).
  split; [|split; [|split; [|split]]].
  - destruct (@receipt_email_first_nonempty example_sdk receipt_object) as (Hr & _).
    exact (Hr H1).
  - destruct (@receipt_email_first_nonempty example_sdk receipt_and_text_details_object)
      as (Hr & _).
    exact (Hr H2).
  - destruct (@receipt_email_first_nonempty example_sdk checkout_object)
      as (_ & _ & He & _).
    apply He; [vm_compute; reflexivity | vm_compute; reflexivity | exact H3].
  - destruct (@receipt_email_first_nonempty example_sdk empty_emails_object)
      as (_ & _ & He & _).
    apply He; [vm_compute; reflexivity | vm_compute; reflexivity | exact H4 | exact H5].
  - destruct (@receipt_email_first_nonempty example_sdk empty_object)
      as (_ & _ & _ & _ & Hnone & _).
    apply Hnone; vm_compute; reflexivity.
Defined.

(** The amount scenario of the specification. *)
Example amount_minor_scenario :
  amount_minor (PDict amount_received_object) = Ok (PInt 1000)
  /\ amount_minor (PDict empty_object) = Ok (PInt 0)
  /\ amount_minor (PDict zero_amount_object) = Ok (PInt 2500).
Proof.
  split; [|split].
  - destruct (@amount_minor_first_nonzero example_sdk amount_received_object) as (Heq & _).
    exact Heq.
  - destruct (@amount_minor_first_nonzero example_sdk empty_object) as (_ & Habsent & _).
    apply Habsent; vm_compute; reflexivity.
  - destruct (@amount_minor_first_nonzero example_sdk zero_amount_object) as (Heq & _).
    exact Heq.
Qed.


Lemma payment_intent_id_witness :
  payment_intent_id (PDict payment_intent_object) = Ok (PStr "pi_1")
  /\ payment_intent_id (PDict charge_object) = Ok (PStr "pi_2").
Proof.
  split.
  - destruct (@payment_intent_id_disambiguation example_sdk payment_intent_object)
      as (Hown & _).
    apply Hown. vm_compute. reflexivity.
  - destruct (@payment_intent_id_disambiguation example_sdk charge_object)
      as (_ & Hother & _).
    apply Hother. vm_compute. discriminate.
Defined.

(** * Further properties *)

(** ** Runs of the handler *)

Section Runs.
Context `{Runtime}.

(** Splits a goal about [lambda_handler environ now event] into the eight
    ways a run can go. *)
Ltac handler_cases environ now event :=
  rewrite ?(lambda_handler_run environ now event);
  let secret := fresh "secret" in
  let sig_header := fresh "sig_header" in
  let payload := fresh "payload" in
  destruct (environ !! "STRIPE_WEBHOOK_SECRET") as [secret|] eqn:Hsecret;
    [destruct secret; simpl|simpl];
  [ | destruct (signature_header event) as [sig_header|] eqn:Hsig;
      [destruct sig_header; simpl|simpl];
      [ | destruct (get_raw_body event) as [payload|?e] eqn:Hbody;
          [ destruct (construct_event payload _ _) as [?ev| |?msg] eqn:Hverdict;
            [ destruct (normalize ev now) as [?doc|?e] eqn:Hnorm; simpl
            | simpl | simpl ]
          | simpl ]
      | ]
  | ].

(** Closes a goal in which [Hin] says that a verifier call is in the trace
    of a run that made none, or another one: [Hcall] is [call_in_trace]
    for the run. *)
Ltac from_the_call Hcall Hin :=
  first
  [ simpl in Hin; contradiction
  | destruct (Hcall _ _ _ Hin) as (? & ? & ?); congruence ].

(** A verifier call of the trace was made on the decoded body, the
    signature header and the secret of the environment. *)
Lemma call_in_trace environ now event payload sig_header secret :
  In (CallConstructEvent payload sig_header secret)
     (trace (lambda_handler environ now event)) ->
  environ !! "STRIPE_WEBHOOK_SECRET" = Some secret
  /\ signature_header event = Some sig_header
  /\ get_raw_body event = Ok payload.
Proof.
  handler_cases environ now event; intros Hin; simpl in Hin;
    repeat (destruct Hin as [Hin|Hin]; [try discriminate|]); try contradiction;
    injection Hin as <- <- <-; auto.
Qed.

(** X3. With the secret and a signature header present, a body that
    [get_raw_body] cannot decode (a null body, text the base64 decoder
    refuses) ends the run with that exception before anything else happens:
    the verifier is not called, nothing is printed and no response, not
    even an error status, is returned. *)
Theorem undecodable_body_raises_before_verification environ now event e :
  str_truthy (environ !! "STRIPE_WEBHOOK_SECRET") = true ->
  str_truthy (signature_header event) = true ->
  get_raw_body event = Raise e ->
  lambda_handler environ now event = MkExec [] (Raise e)
  /\ status (lambda_handler environ now event) = None
  /\ ~ verification_attempted (trace (lambda_handler environ now event)).
Proof.
  intros Hs Hg Hraise.
  destruct (if_not_present _ tt (fun _ => tt) Hs) as (secret & Hsecret & Hne & _).
  destruct (if_not_present _ tt (fun _ => tt) Hg) as (sig_header & Hsig & Hsne & _).
  rewrite (lambda_handler_verifying _ _ _ _ _ Hsecret Hne Hsig Hsne), Hraise.
  repeat split. apply not_attempted_nil.
Qed.

(** X4. The handler answers with the "Missing STRIPE_WEBHOOK_SECRET env"
    response, and does nothing else, exactly when the secret is absent from
    the environment or is the empty string. *)
Theorem missing_secret_response_iff environ now event :
  lambda_handler environ now event
    = MkExec [] (Ok (plain_response 500 "Missing STRIPE_WEBHOOK_SECRET env"))
  <-> (environ !! "STRIPE_WEBHOOK_SECRET" = None
       \/ environ !! "STRIPE_WEBHOOK_SECRET" = Some EmptyString).
Proof.
  split.
  - handler_cases environ now event; auto; discriminate.
  - intros [Hnone | Hblank]; rewrite lambda_handler_run;
      [rewrite Hnone | rewrite Hblank]; reflexivity.
Qed.

(** X5. The verifier is called at most once in a run, and before anything
    is printed: the trace is empty, or it is one call of the verifier, on
    the decoded body, the signature header and the secret of the
    environment, followed by printed lines only. *)
Theorem verifier_called_once_and_first environ now event :
  let run := lambda_handler environ now event in
  trace run = [] \/
  exists payload sig_header secret lines,
    trace run = CallConstructEvent payload sig_header secret :: map Print lines
    /\ environ !! "STRIPE_WEBHOOK_SECRET" = Some secret
    /\ signature_header event = Some sig_header
    /\ get_raw_body event = Ok payload.
Proof.
  intros run. subst run.
  handler_cases environ now event; auto; right.
  - eexists _, _, _, [_; _; _; _]. repeat split.
  - eexists _, _, _, [_; _; _]. repeat split.
  - eexists _, _, _, [_]. repeat split.
  - eexists _, _, _, [_]. repeat split.
Qed.

(** X6. When both spellings of the signature header carry a value, the
    verifier is shown the one under [stripe-signature]; the value under
    [Stripe-Signature] is used only when the lower-case spelling is absent
    or empty. *)
Theorem lower_case_spelling_wins environ now event payload sig_header secret :
  In (CallConstructEvent payload sig_header secret)
     (trace (lambda_handler environ now event)) ->
  let headers := default ∅ (ev_headers event) in
  (str_truthy (headers !! "stripe-signature") = true ->
     headers !! "stripe-signature" = Some sig_header)
  /\ (str_truthy (headers !! "stripe-signature") = false ->
     headers !! "Stripe-Signature" = Some sig_header).
Proof.
  intros Hin headers. destruct (call_in_trace _ _ _ _ _ _ Hin) as (_ & Hsig & _).
  unfold signature_header, str_or in Hsig. fold headers in Hsig.
  split; intros Hlow; rewrite Hlow in Hsig; exact Hsig.
Qed.

(** X7. A response of the handler has status 200, 400, 401 or 500, and it
    carries headers exactly when the status is 200. *)
Theorem response_status_is_known environ now event r :
  outcome (lambda_handler environ now event) = Ok r ->
  In (statusCode r) handler_statuses
  /\ (headers r <> None <-> statusCode r = 200%Z).
Proof.
  unfold handler_statuses.
  handler_cases environ now event; intros [= <-]; simpl;
    (split; [auto 6 | split; try discriminate; try congruence; auto]).
Qed.

(** X8. What each status tells: 200 exactly when a normalized document was
    printed, 401 exactly when the verifier was called and raised
    [SignatureVerificationError], 500 exactly when the secret is absent or
    empty or the verifier was called and raised another exception. *)
Theorem status_meaning environ now event :
  let run := lambda_handler environ now event in
  (status run = Some 200%Z <-> emitted_documents (trace run) <> [])
  /\ (status run = Some 401%Z <->
      exists payload sig_header secret,
        In (CallConstructEvent payload sig_header secret) (trace run) /\
        construct_event payload sig_header secret = SignatureVerificationError)
  /\ (status run = Some 500%Z <->
      str_truthy (environ !! "STRIPE_WEBHOOK_SECRET") = false \/
      exists payload sig_header secret msg,
        In (CallConstructEvent payload sig_header secret) (trace run) /\
        construct_event payload sig_header secret = OtherException msg).
Proof.
  intros run. pose proof (call_in_trace environ now event) as Hcall.
  fold run in Hcall. revert Hcall. subst run.
  handler_cases environ now event; intros Hcall; repeat split;
    first
    [ discriminate
    | congruence
    | intros _; reflexivity
    | intros _; left; reflexivity
    | intros _; eexists _, _, _; split; [left; reflexivity | eassumption]
    | intros _; right; eexists _, _, _, _; split; [left; reflexivity | eassumption]
    | intros [Hblank | (p & s & k & m & Hin & Hv)];
        [discriminate | from_the_call Hcall Hin]
    | intros (p & s & k & Hin & Hv); from_the_call Hcall Hin ].
Qed.



End Runs.

(** ** The normalized document *)

Section Document.
Context `{Runtime}.

(** The document a successful field derivation builds, entry by entry. *)
Lemma normalize_document stripe_event now doc :
  normalize stripe_event now = Ok doc ->
  exists o amount intent charge email email_token customer_id_token,
    event_object stripe_event = Ok (PDict o) /\
    amount_minor (PDict o) = Ok amount /\
    payment_intent_id (PDict o) = Ok intent /\
    charge_id (PDict o) = Ok charge /\
    receipt_email (PDict o) = Ok email /\
    sha256_token email = Ok email_token /\
    sha256_token (dict_get o "customer") = Ok customer_id_token /\
    doc = PDict {[
      "provider" := PStr "stripe";
      "source" := PStr "webhook";
      "event_id" := dict_get stripe_event "id";
      "event_type" := dict_get stripe_event "type";
      "received_at" := PInt now;
      "transaction" := PDict {[
        "transaction_id" := dict_get o "id";
        "amount_minor" := amount;
        "currency" := dict_get o "currency";
        "status" := dict_get o "status";
        "created" := dict_get o "created" ]};
      "pii" := PDict {[
        "email_token" := of_token email_token;
        "customer_id_token" := of_token customer_id_token ]};
      "refs" := PDict {[
        "payment_intent_id" := intent;
        "charge_id" := charge;
        "customer_id" := dict_get o "customer" ]} ]}.
Proof.
  unfold normalize. intros Hn.
  destruct (event_object stripe_event) as [obj|e]; [|discriminate]. simpl in Hn.
  destruct obj as [| | | | | | |o]; try discriminate. simpl in Hn.
  destruct (amount_minor (PDict o)) as [amount|e] eqn:Ea; [|discriminate].
  simpl in Hn.
  destruct (payment_intent_id (PDict o)) as [intent|e] eqn:Ei; [|discriminate].
  simpl in Hn.
  destruct (charge_id (PDict o)) as [charge|e] eqn:Ec; [|discriminate].
  simpl in Hn.
  destruct (receipt_email (PDict o)) as [email|e] eqn:Er; [|discriminate].
  simpl in Hn.
  destruct (sha256_token email) as [email_token|e] eqn:Et; [|discriminate].
  simpl in Hn.
  destruct (sha256_token (dict_get o "customer")) as [customer_id_token|e] eqn:Ek;
    [|discriminate].
  simpl in Hn. injection Hn as <-.
  exists o, amount, intent, charge, email, email_token, customer_id_token.
  repeat split; auto.
Qed.

(** X10. Every normalized document has the same keys, whatever the event
    holds: the eight top-level keys, five under [transaction], two under
    [pii] and three under [refs]; a field the event lacks is an entry with
    value [None], not a missing key. *)
Theorem normalized_document_schema stripe_event now doc :
  normalize stripe_event now = Ok doc ->
  doc_keys doc
    = Some {[ "provider"; "source"; "event_id"; "event_type"; "received_at";
              "transaction"; "pii"; "refs" ]}
  /\ section_keys doc "transaction"
      = Some {[ "transaction_id"; "amount_minor"; "currency"; "status"; "created" ]}
  /\ section_keys doc "pii" = Some {[ "email_token"; "customer_id_token" ]}
  /\ section_keys doc "refs" = Some {[ "payment_intent_id"; "charge_id"; "customer_id" ]}.
Proof.
  intros Hn.
  destruct (normalize_document _ _ _ Hn)
    as (o & amount & intent & charge & email & et & ct & _ & _ & _ & _ & _ & _ & _ & ->).
  split; [|split; [|split]]; reflexivity.
Qed.

(** X11. The document's metadata: [provider] is ["stripe"] and [source] is
    ["webhook"] for every event, [received_at] is the time of the run as an
    integer, and [event_id] and [event_type] are the event's own [id] and
    [type], [None] when the event lacks them. *)
Theorem normalized_document_metadata stripe_event now doc :
  normalize stripe_event now = Ok doc ->
  doc_top doc "provider" = Some (PStr "stripe")
  /\ doc_top doc "source" = Some (PStr "webhook")
  /\ doc_top doc "received_at" = Some (PInt now)
  /\ doc_top doc "event_id" = Some (dict_get stripe_event "id")
  /\ doc_top doc "event_type" = Some (dict_get stripe_event "type")
  /\ (stripe_event !! "id" = None -> doc_top doc "event_id" = Some PNone)
  /\ (stripe_event !! "type" = None -> doc_top doc "event_type" = Some PNone).
Proof.
  intros Hn.
  destruct (normalize_document _ _ _ Hn)
    as (o & amount & intent & charge & email & et & ct & _ & _ & _ & _ & _ & _ & _ & ->).
  repeat split; try reflexivity.
  - intros Hid. unfold dict_get. rewrite Hid. reflexivity.
  - intros Htype. unfold dict_get. rewrite Htype. reflexivity.
Qed.

(** X12. The object's [id], [currency], [status] and [created] reach the
    [transaction] section unchanged, whatever kind of value they are, and a
    field the object lacks comes out as [None]; the customer id is kept in
    the clear under [refs], beside its token under [pii]. *)
Theorem object_fields_pass_through stripe_event now doc :
  normalize stripe_event now = Ok doc ->
  exists o, event_object stripe_event = Ok (PDict o)
    /\ doc_field doc "transaction" "transaction_id" = Some (dict_get o "id")
    /\ doc_field doc "transaction" "currency" = Some (dict_get o "currency")
    /\ doc_field doc "transaction" "status" = Some (dict_get o "status")
    /\ doc_field doc "transaction" "created" = Some (dict_get o "created")
    /\ doc_field doc "refs" "customer_id" = Some (dict_get o "customer")
    /\ (exists token, sha256_token (dict_get o "customer") = Ok token
          /\ doc_field doc "pii" "customer_id_token" = Some (of_token token))
    /\ (forall key, o !! key = None -> dict_get o key = PNone).
Proof.
  intros Hn.
  destruct (normalize_document _ _ _ Hn)
    as (o & amount & intent & charge & email & et & ct
        & Hobj & _ & _ & _ & _ & _ & Hct & ->).
  exists o. repeat split; try reflexivity; try assumption.
  - exists ct. split; [exact Hct | reflexivity].
  - intros key Hkey. unfold dict_get. rewrite Hkey. reflexivity.
Qed.

(** X13. [charge_id] is the object's [charge] when that is non-empty and
    its [latest_charge] otherwise, as it stands; it is [None] when the
    object has neither, and it is the value under [refs.charge_id]. *)
Theorem charge_id_falls_back_to_latest_charge (o : gmap string PyVal) :
  charge_id (PDict o)
    = Ok (first_truthy [dict_get o "charge"] (dict_get o "latest_charge"))
  /\ (o !! "charge" = None -> o !! "latest_charge" = None ->
      charge_id (PDict o) = Ok PNone)
  /\ (forall stripe_event now doc,
        event_object stripe_event = Ok (PDict o) ->
        normalize stripe_event now = Ok doc ->
        doc_field doc "refs" "charge_id"
          = Some (first_truthy [dict_get o "charge"] (dict_get o "latest_charge"))).
Proof.
  assert (Heq : charge_id (PDict o)
    = Ok (first_truthy [dict_get o "charge"] (dict_get o "latest_charge"))).
  { unfold charge_id, lazy_or. simpl. destruct (truthy _); reflexivity. }
  split; [exact Heq | split].
  - intros Hc Hl. rewrite Heq. unfold dict_get. rewrite Hc, Hl. reflexivity.
  - intros stripe_event now doc Hobj Hn.
    destruct (normalize_document _ _ _ Hn)
      as (o' & amount & intent & charge & email & et & ct
          & Hobj' & _ & _ & Hch & _ & _ & _ & ->).
    rewrite Hobj in Hobj'. injection Hobj' as <-.
    rewrite Heq in Hch. injection Hch as <-. reflexivity.
Qed.

Lemma digest_differs (s : string) (r : SHA256.regs) :
  String.length s <> 64 \/ ~ Forall is_hex_char (list_ascii_of_string s) ->
  SHA256.hexdigest r <> s.
Proof.
  intros Hs Heq. destruct (hexdigest_fixed_length r) as (Hlen & Hhex).
  rewrite Heq in Hlen, Hhex. destruct Hs as [Hs | Hs]; contradiction.
Qed.

(** X14. An entry of the [pii] section is [None] when the value it comes
    from (the selected e-mail address, the customer id) is false, and
    otherwise a string of 64 lower-case hexadecimal characters; it differs
    from that value whenever the value is not itself such a string, so an
    address with an [@] or an id with an underscore never shows in [pii]. *)
Theorem pii_entry_is_not_the_raw_value stripe_event now doc :
  normalize stripe_event now = Ok doc ->
  exists o email,
    event_object stripe_event = Ok (PDict o) /\
    receipt_email (PDict o) = Ok email /\
    forall key raw,
      (key = "email_token"%string /\ raw = email) \/
      (key = "customer_id_token"%string /\ raw = dict_get o "customer") ->
      exists v, doc_field doc "pii" key = Some v /\
        (truthy raw = false -> v = PNone) /\
        (truthy raw = true ->
           exists s t, raw = PStr s /\ v = PStr t /\
             String.length t = 64 /\
             Forall is_hex_char (list_ascii_of_string t) /\
             (String.length s <> 64 \/ ~ Forall is_hex_char (list_ascii_of_string s) ->
              t <> s)).
Proof.
  intros Hn.
  destruct (normalize_document _ _ _ Hn)
    as (o & amount & intent & charge & email & et & ct
        & Hobj & _ & _ & _ & Hemail & Het & Hct & ->).
  exists o, email. split; [exact Hobj|]. split; [exact Hemail|].
  assert (Htoken : forall raw token, sha256_token raw = Ok token ->
    (truthy raw = false -> of_token token = PNone) /\
    (truthy raw = true ->
       exists s t, raw = PStr s /\ of_token token = PStr t /\
         String.length t = 64 /\
         Forall is_hex_char (list_ascii_of_string t) /\
         (String.length s <> 64 \/ ~ Forall is_hex_char (list_ascii_of_string s) ->
          t <> s))).
  { intros raw token Htok.
    destruct (sha256_token_inv _ _ Htok) as [(Hfalse & ->) | (a & s & -> & ->)].
    - split; [reflexivity | congruence].
    - split; [discriminate|]. intros _. eexists _, _.
      split; [reflexivity|]. split; [reflexivity|].
      split; [apply hexdigest_fixed_length|].
      split; [apply hexdigest_fixed_length|]. apply digest_differs. }
  intros key raw [(-> & ->) | (-> & ->)].
  - exists (of_token et). split; [reflexivity | exact (Htoken _ _ Het)].
  - exists (of_token ct). split; [reflexivity | exact (Htoken _ _ Hct)].
Qed.

Lemma event_object_default stripe_event :
  has_no_object stripe_event = true -> event_object stripe_event = Ok (PDict ∅).
Proof.
  unfold has_no_object, event_object. intros Hno.
  destruct (dict_get stripe_event "data") as [| | | | | | |d].
  8: { unfold py_or at 2. destruct (truthy (PDict d)) eqn:Hd.
       - rewrite orb_false_l in Hno. apply negb_true_iff in Hno.
         cbn [py_get mbind result_bind mret result_ret]. unfold py_or.
         rewrite Hno. reflexivity.
       - reflexivity. }
  all: apply negb_true_iff in Hno; unfold py_or at 2; rewrite Hno; reflexivity.
Qed.

(** X15. An event without an object ([data] absent, null or empty, or its
    [object] absent, null or empty) is still normalized: the derivation
    raises nothing, [amount_minor] is 0 and every other derived entry of
    [transaction], [pii] and [refs] is [None]. *)
Theorem event_without_object_normalizes stripe_event now :
  has_no_object stripe_event = true ->
  exists doc, normalize stripe_event now = Ok doc
    /\ well_shaped stripe_event = true
    /\ doc_field doc "transaction" "amount_minor" = Some (PInt 0)
    /\ Forall (fun entry => doc_field doc (fst entry) (snd entry) = Some PNone)
         [ ("transaction", "transaction_id"); ("transaction", "currency");
           ("transaction", "status"); ("transaction", "created");
           ("pii", "email_token"); ("pii", "customer_id_token");
           ("refs", "payment_intent_id"); ("refs", "charge_id");
           ("refs", "customer_id") ]%string.
Proof.
  intros Hno. pose proof (event_object_default _ Hno) as Hobj.
  assert (Hdoc : exists doc, normalize stripe_event now = Ok doc
    /\ doc_field doc "transaction" "amount_minor" = Some (PInt 0)
    /\ Forall (fun entry => doc_field doc (fst entry) (snd entry) = Some PNone)
         [ ("transaction", "transaction_id"); ("transaction", "currency");
           ("transaction", "status"); ("transaction", "created");
           ("pii", "email_token"); ("pii", "customer_id_token");
           ("refs", "payment_intent_id"); ("refs", "charge_id");
           ("refs", "customer_id") ]%string).
  { unfold normalize. rewrite Hobj. eexists. split; [reflexivity|].
    split; [reflexivity|]. repeat (constructor; [reflexivity|]). constructor. }
  destruct Hdoc as (doc & Hn & Hamount & Hnone).
  exists doc. split; [exact Hn|]. split; [|split; assumption].
  rewrite <- (normalize_ok_iff_well_shaped stripe_event now), Hn. reflexivity.
Qed.

End Document.

(** ** Tokens, further *)

Section MoreTokens.
Context `{Runtime}.

(** X16. What [sha256_token] does by the kind of value: it returns [None]
    exactly for the false values ([None], the empty string, but also 0,
    [False], an empty list or mapping), a digest exactly for a non-empty
    string that has a UTF-8 encoding, and it raises exactly for any other
    true value: one that is not a string, or a string that holds a lone
    surrogate, on which [encode] raises [UnicodeEncodeError]. *)
Theorem sha256_token_outcomes (v : PyVal) :
  (sha256_token v = Ok None <-> truthy v = false)
  /\ ((exists t, sha256_token v = Ok (Some t)) <-> exists a s, v = PStr (String a s))
  /\ ((exists e, sha256_token v = Raise e) <-> truthy v = true /\ forall s, v <> PStr s)
  /\ (forall s, sha256_token (PLoneStr s) = Raise UnicodeEncodeError).
Proof.
  split; [|split; [|split; [|reflexivity]]]; split.
  - intros Htok. destruct (sha256_token_inv _ _ Htok) as [(Hv & _) | (a & s & _ & [=])].
    exact Hv.
  - apply sha256_token_false.
  - intros (t & Htok).
    destruct (sha256_token_inv _ _ Htok) as [(_ & [=]) | (a & s & -> & _)]. eauto.
  - intros (a & s & ->). eexists. reflexivity.
  - intros (e & Hraise). pose proof (sha256_token_ok v) as Hok.
    rewrite Hraise in Hok. simpl in Hok. symmetry in Hok.
    destruct v; simpl in Hok; try discriminate;
      (split; [first [reflexivity | apply negb_false_iff in Hok; exact Hok]
              | discriminate]).
  - intros (Hv & Hnot). pose proof (sha256_token_ok v) as Hok.
    destruct (sha256_token v) as [t|e]; [|eauto]. simpl in Hok. symmetry in Hok.
    destruct v; simpl in Hok, Hv; try congruence;
      try (rewrite Hv in Hok; discriminate).
    exfalso. eapply Hnot. reflexivity.
Qed.

(** X17. A non-empty string made of whitespace only is not treated as
    absent: it is stripped to the empty text and gets the SHA-256 digest of
    no bytes as its token. *)
Theorem blank_string_gets_empty_digest (a : ascii) (s : string) :
  PyStr.strip (String a s) = EmptyString ->
  sha256_token (PStr (String a s))
    = Ok (Some "e3b0c44298fc1c149afbf4c8996fb92427ae41e4649b934ca495991b7852b855"%string).
Proof.
  intros Hblank. unfold sha256_token. simpl. rewrite Hblank. vm_compute. reflexivity.
Qed.

End MoreTokens.

(** ** Stripping and lowering *)

Section DropSpaces.
Variable seqs : list (list ascii).

Lemma drop_spaces_suffix (l : list ascii) : forall skip,
  exists pre, l = pre ++ PyStr.drop_spaces seqs skip l.
Proof.
  induction l as [|c l IH]; intros skip; [exists []; reflexivity|].
  destruct skip as [|k]; simpl.
  - destruct (PyStr.space_len seqs (c :: l)) as [|k].
    + exists []. reflexivity.
    + destruct (IH k) as (pre & Hpre). exists (c :: pre). simpl. congruence.
  - destruct (IH k) as (pre & Hpre). exists (c :: pre). simpl. congruence.
Qed.

Lemma drop_spaces_idempotent (l : list ascii) : forall skip,
  PyStr.drop_spaces seqs 0 (PyStr.drop_spaces seqs skip l)
  = PyStr.drop_spaces seqs skip l.
Proof.
  induction l as [|c l IH]; intros skip; [reflexivity|].
  destruct skip as [|k]; simpl.
  - destruct (PyStr.space_len seqs (c :: l)) as [|k] eqn:Hlen.
    + simpl. rewrite Hlen. reflexivity.
    + apply IH.
  - apply IH.
Qed.

Lemma drop_spaces_fixed (l : list ascii) :
  PyStr.drop_spaces seqs 0 l = l -> l = [] \/ PyStr.space_len seqs l = 0.
Proof.
  destruct l as [|c l]; [auto|]. simpl.
  destruct (PyStr.space_len seqs (c :: l)) as [|k]; [auto|].
  intros Hfix. exfalso. destruct (drop_spaces_suffix l k) as (pre & Hpre).
  rewrite Hfix in Hpre. apply (f_equal (@length ascii)) in Hpre.
  rewrite length_app in Hpre. simpl in Hpre. lia.
Qed.

Lemma starts_with_app (p l rest : list ascii) :
  PyStr.starts_with p l = true -> PyStr.starts_with p (l ++ rest) = true.
Proof.
  revert l. induction p as [|a p IH]; intros l; [reflexivity|].
  destruct l as [|b l]; simpl; [discriminate|].
  intros Hp. apply andb_true_iff in Hp as [Hab Hp].
  rewrite Hab. simpl. apply IH, Hp.
Qed.

Hypothesis seqs_nonempty : Forall (fun p => p <> []) seqs.

Lemma space_len_zero (l : list ascii) :
  PyStr.space_len seqs l = 0 <-> find (fun p => PyStr.starts_with p l) seqs = None.
Proof.
  unfold PyStr.space_len.
  destruct (find _ seqs) as [p|] eqn:Hfind; [|tauto].
  apply find_some in Hfind as [Hin _].
  apply (proj1 (List.Forall_forall _ _) seqs_nonempty) in Hin.
  split; [|discriminate]. destruct p; [congruence | discriminate].
Qed.

Lemma drop_spaces_prefix_fixed (l rest : list ascii) :
  PyStr.drop_spaces seqs 0 (l ++ rest) = l ++ rest ->
  PyStr.drop_spaces seqs 0 l = l.
Proof.
  intros Hfix. destruct l as [|c l]; [reflexivity|].
  destruct (drop_spaces_fixed _ Hfix) as [Hnil | Hlen]; [discriminate|].
  assert (Hzero : PyStr.space_len seqs (c :: l) = 0).
  { apply space_len_zero. apply space_len_zero in Hlen.
    destruct (find (fun p => PyStr.starts_with p (c :: l)) seqs) as [p|] eqn:Hfind;
      [|reflexivity].
    apply find_some in Hfind as [Hin Hp].
    apply (starts_with_app _ _ rest) in Hp.
    eapply find_none in Hlen; [|exact Hin]. cbv beta in Hlen. congruence. }
  simpl. simpl in Hzero. rewrite Hzero. reflexivity.
Qed.

End DropSpaces.

Lemma whitespace_nonempty : Forall (fun p : list ascii => p <> []) PyStr.whitespace.
Proof. repeat (constructor; [discriminate|]). constructor. Qed.

Lemma rev_whitespace_nonempty :
  Forall (fun p : list ascii => p <> []) (map (@rev ascii) PyStr.whitespace).
Proof. repeat (constructor; [discriminate|]). constructor. Qed.

Lemma rstrip_lstrip_fixed (l : list ascii) :
  PyStr.lstrip l = l -> PyStr.lstrip (PyStr.rstrip l) = PyStr.rstrip l.
Proof.
  unfold PyStr.lstrip, PyStr.rstrip. intros Hfix.
  destruct (drop_spaces_suffix (map (@rev ascii) PyStr.whitespace) (rev l) 0)
    as (pre & Hpre).
  apply (drop_spaces_prefix_fixed _ whitespace_nonempty _ (rev pre)).
  rewrite <- rev_app_distr, <- Hpre, rev_involutive. exact Hfix.
Qed.

Lemma strip_idempotent (s : string) : PyStr.strip (PyStr.strip s) = PyStr.strip s.
Proof.
  unfold PyStr.strip. rewrite list_ascii_of_string_of_list_ascii. f_equal.
  rewrite rstrip_lstrip_fixed.
  - unfold PyStr.rstrip. rewrite rev_involutive, drop_spaces_idempotent. reflexivity.
  - apply drop_spaces_idempotent.
Qed.

Lemma ascii_lower_idempotent (c : ascii) :
  PyStr.ascii_lower (PyStr.ascii_lower c) = PyStr.ascii_lower c.
Proof. destruct c as [[] [] [] [] [] [] [] []]; reflexivity. Qed.

Lemma ascii_lower_is_ascii (c : ascii) :
  PyStr.is_ascii (PyStr.ascii_lower c) = PyStr.is_ascii c.
Proof. destruct c as [[] [] [] [] [] [] [] []]; reflexivity. Qed.

Lemma eqb_ascii_lower (a b : ascii) :
  ascii_letter a = false ->
  Ascii.eqb a (PyStr.ascii_lower b) = Ascii.eqb a b.
Proof.
  intros Ha. unfold PyStr.ascii_lower.
  destruct ((65 <=? N_of_ascii b) && (N_of_ascii b <=? 90))%N eqn:Hup; [|reflexivity].
  apply andb_true_iff in Hup as [Hlo Hhi].
  apply N.leb_le in Hlo, Hhi.
  assert (Hb : Ascii.eqb a b = false).
  { apply Ascii.eqb_neq. intros ->. unfold ascii_letter in Ha.
    apply orb_false_iff in Ha as [Ha _]. apply andb_false_iff in Ha as [Ha | Ha];
      apply N.leb_gt in Ha; lia. }
  rewrite Hb. apply Ascii.eqb_neq. intros ->. unfold ascii_letter in Ha.
  rewrite N_ascii_embedding in Ha by lia.
  apply orb_false_iff in Ha as [_ Ha]. apply andb_false_iff in Ha as [Ha | Ha];
    apply N.leb_gt in Ha; lia.
Qed.

Section LowerAndDrop.
Variable seqs : list (list ascii).
Hypothesis seqs_no_letter :
  forallb (forallb (fun a => negb (ascii_letter a))) seqs = true.

Lemma starts_with_lower (p l : list ascii) :
  forallb (fun a => negb (ascii_letter a)) p = true ->
  PyStr.starts_with p (map PyStr.ascii_lower l) = PyStr.starts_with p l.
Proof.
  revert l. induction p as [|a p IH]; intros l Hp; [reflexivity|].
  simpl in Hp. apply andb_true_iff in Hp as [Ha Hp]. apply negb_true_iff in Ha.
  destruct l as [|b l]; simpl; [reflexivity|].
  rewrite (eqb_ascii_lower _ _ Ha), (IH _ Hp). reflexivity.
Qed.

Lemma space_len_lower (l : list ascii) :
  PyStr.space_len seqs (map PyStr.ascii_lower l) = PyStr.space_len seqs l.
Proof.
  unfold PyStr.space_len. revert seqs_no_letter.
  induction seqs as [|p rest IH]; intros Hseqs; [reflexivity|].
  simpl in Hseqs. apply andb_true_iff in Hseqs as [Hp Hrest]. simpl.
  rewrite (starts_with_lower _ _ Hp).
  destruct (PyStr.starts_with p l); [reflexivity | apply IH, Hrest].
Qed.

Lemma drop_spaces_lower (l : list ascii) : forall skip,
  PyStr.drop_spaces seqs skip (map PyStr.ascii_lower l)
  = map PyStr.ascii_lower (PyStr.drop_spaces seqs skip l).
Proof.
  induction l as [|c l IH]; intros skip; [reflexivity|].
  destruct skip as [|k].
  - change (map PyStr.ascii_lower (c :: l))
      with (PyStr.ascii_lower c :: map PyStr.ascii_lower l).
    cbn [PyStr.drop_spaces].
    change (PyStr.ascii_lower c :: map PyStr.ascii_lower l)
      with (map PyStr.ascii_lower (c :: l)).
    rewrite space_len_lower.
    destruct (PyStr.space_len seqs (c :: l)); [reflexivity | apply IH].
  - simpl. apply IH.
Qed.

End LowerAndDrop.

Lemma strip_lower_ascii (s : string) :
  PyStr.strip (PyStr.lower_ascii s) = PyStr.lower_ascii (PyStr.strip s).
Proof.
  unfold PyStr.strip, PyStr.lower_ascii, PyStr.lstrip, PyStr.rstrip.
  rewrite !list_ascii_of_string_of_list_ascii. f_equal.
  rewrite (drop_spaces_lower PyStr.whitespace) by reflexivity.
  rewrite <- map_rev.
  rewrite (drop_spaces_lower (map (@rev ascii) PyStr.whitespace)) by reflexivity.
  rewrite map_rev. reflexivity.
Qed.

Lemma in_drop_spaces seqs skip (l : list ascii) (x : ascii) :
  In x (PyStr.drop_spaces seqs skip l) -> In x l.
Proof.
  intros Hin. destruct (drop_spaces_suffix seqs l skip) as (pre & Hpre).
  rewrite Hpre. apply in_or_app. right. exact Hin.
Qed.

Lemma strip_is_ascii_text (s : string) :
  is_ascii_text s = true -> is_ascii_text (PyStr.strip s) = true.
Proof.
  unfold is_ascii_text, PyStr.strip. rewrite list_ascii_of_string_of_list_ascii.
  rewrite !List.forallb_forall. intros Hs x Hin. apply Hs.
  unfold PyStr.rstrip, PyStr.lstrip in Hin.
  apply in_rev, in_drop_spaces, in_rev, in_drop_spaces in Hin. exact Hin.
Qed.

Lemma lower_ascii_is_ascii_text (s : string) :
  is_ascii_text (PyStr.lower_ascii s) = is_ascii_text s.
Proof.
  unfold is_ascii_text, PyStr.lower_ascii. rewrite list_ascii_of_string_of_list_ascii.
  induction (list_ascii_of_string s) as [|c l IH]; [reflexivity|].
  simpl. rewrite ascii_lower_is_ascii, IH. reflexivity.
Qed.

Lemma lower_ascii_idempotent (s : string) :
  PyStr.lower_ascii (PyStr.lower_ascii s) = PyStr.lower_ascii s.
Proof.
  unfold PyStr.lower_ascii. rewrite list_ascii_of_string_of_list_ascii. f_equal.
  induction (list_ascii_of_string s) as [|c l IH]; [reflexivity|].
  simpl. rewrite ascii_lower_idempotent, IH. reflexivity.
Qed.

Section NormalForm.
Context `{Runtime}.

Lemma py_lower_ascii_text (s : string) :
  is_ascii_text s = true -> py_lower s = PyStr.lower_ascii s.
Proof. unfold py_lower, is_ascii_text. intros ->. reflexivity. Qed.

(** The normal form of ASCII text: lowered after it is stripped, or
    stripped after it is lowered. *)
Lemma normal_form_ascii (s : string) :
  is_ascii_text s = true ->
  py_lower (PyStr.strip s) = PyStr.strip (PyStr.lower_ascii s).
Proof.
  intros Hs. rewrite py_lower_ascii_text by (apply strip_is_ascii_text, Hs).
  symmetry. apply strip_lower_ascii.
Qed.

(** X18. On ASCII text the normal form is stable: stripping and lowering
    the stripped, lowered value changes nothing, so the normalized value,
    when it is not empty, has the token of the value it comes from. *)
Theorem token_of_normal_form (s : string) :
  is_ascii_text s = true ->
  let normal := py_lower (PyStr.strip s) in
  py_lower (PyStr.strip normal) = normal
  /\ (normal <> EmptyString ->
      sha256_token (PStr normal) = sha256_token (PStr s)).
Proof.
  intros Hs normal.
  assert (Hstable : py_lower (PyStr.strip normal) = normal).
  { subst normal. rewrite (normal_form_ascii s Hs).
    rewrite normal_form_ascii.
    - rewrite !strip_lower_ascii, !strip_idempotent, !lower_ascii_idempotent.
      reflexivity.
    - rewrite strip_lower_ascii, lower_ascii_is_ascii_text.
      apply strip_is_ascii_text, Hs. }
  split; [exact Hstable|]. intros Hne.
  destruct s as [|a s]; [exfalso; apply Hne; reflexivity|].
  destruct normal as [|b n] eqn:Hn; [congruence|].
  unfold sha256_token. simpl. rewrite Hstable. subst normal. rewrite Hn. reflexivity.
Qed.

(** X19. On ASCII text the token does not depend on the case of letters:
    two non-empty values that differ only in case have the same token. *)
Theorem token_ignores_ascii_case (a1 a2 : ascii) (s1 s2 : string) :
  is_ascii_text (String a1 s1) = true ->
  is_ascii_text (String a2 s2) = true ->
  PyStr.lower_ascii (String a1 s1) = PyStr.lower_ascii (String a2 s2) ->
  sha256_token (PStr (String a1 s1)) = sha256_token (PStr (String a2 s2)).
Proof.
  intros H1 H2 Hcase. unfold sha256_token. simpl.
  rewrite (normal_form_ascii _ H1), (normal_form_ascii _ H2), Hcase. reflexivity.
Qed.

End NormalForm.

(** ** The further theorems at concrete inputs *)


Lemma undecodable_body_witness :
  @get_raw_body example_sdk null_body_request = Raise AttributeError
  /\ @lambda_handler example_sdk example_environ example_now null_body_request
     = MkExec [] (Raise AttributeError).
Proof.
  assert (Hs : str_truthy (example_environ !! "STRIPE_WEBHOOK_SECRET") = true)
    by (vm_compute; reflexivity).
  assert (Hg : str_truthy (signature_header null_body_request) = true)
    by (vm_compute; reflexivity).
  assert (Hraise : @get_raw_body example_sdk null_body_request = Raise AttributeError)
    by reflexivity.
  split; [exact Hraise|].
  destruct (@undecodable_body_raises_before_verification example_sdk example_environ
              example_now null_body_request AttributeError Hs Hg Hraise)
    as (Hrun & _).
  exact Hrun.
Defined.

Lemma lower_case_spelling_witness :
  In (CallConstructEvent (PyStr.encode_utf8 "{}") "t=1,v1=forged" "whsec_test")
     (trace (@lambda_handler example_sdk example_environ example_now
               both_spellings_request))
  /\ default ∅ (ev_headers both_spellings_request) !! "stripe-signature"
     = Some "t=1,v1=forged"%string.
Proof.
  assert (Hin :
    In (CallConstructEvent (PyStr.encode_utf8 "{}") "t=1,v1=forged" "whsec_test")
       (trace (@lambda_handler example_sdk example_environ example_now
                 both_spellings_request)))
    by (vm_compute; left; reflexivity).
  split; [exact Hin|].
  destruct (@lower_case_spelling_wins example_sdk example_environ example_now
              both_spellings_request _ _ _ Hin) as (Hlow & _).
  apply Hlow. vm_compute. reflexivity.
Defined.

Lemma response_status_witness :
  outcome (@lambda_handler example_sdk example_environ example_now valid_request)
    = Ok ok_response
  /\ In (statusCode ok_response) handler_statuses.
Proof.
  assert (Hok :
    outcome (@lambda_handler example_sdk example_environ example_now valid_request)
    = Ok ok_response) by (vm_compute; reflexivity).
  split; [exact Hok|].
  destruct (@response_status_is_known example_sdk example_environ example_now
              valid_request ok_response Hok) as (Hin & _).
  exact Hin.
Defined.

Lemma document_schema_witness :
  exists doc, @normalize example_sdk checkout_event example_now = Ok doc
    /\ section_keys doc "pii" = Some {[ "email_token"; "customer_id_token" ]}.
Proof.
  destruct (@normalize example_sdk checkout_event example_now) as [doc|e] eqn:Hn.
  - exists doc. split; [reflexivity|].
    destruct (@normalized_document_schema example_sdk checkout_event example_now doc Hn)
      as (_ & _ & Hpii & _).
    exact Hpii.
  - exfalso. vm_compute in Hn. discriminate.
Defined.

Lemma document_metadata_witness :
  exists doc, @normalize example_sdk checkout_event example_now = Ok doc
    /\ doc_top doc "received_at" = Some (PInt example_now)
    /\ doc_top doc "event_id" = Some (PStr "evt_1").
Proof.
  destruct (@normalize example_sdk checkout_event example_now) as [doc|e] eqn:Hn.
  - exists doc. split; [reflexivity|].
    destruct (@normalized_document_metadata example_sdk checkout_event example_now
                doc Hn) as (_ & _ & Hat & Hid & _).
    split; [exact Hat | exact Hid].
  - exfalso. vm_compute in Hn. discriminate.
Defined.

Lemma object_fields_witness :
  exists doc, @normalize example_sdk checkout_event example_now = Ok doc
    /\ exists o, event_object checkout_event = Ok (PDict o)
         /\ doc_field doc "refs" "customer_id" = Some (dict_get o "customer").
Proof.
  destruct (@normalize example_sdk checkout_event example_now) as [doc|e] eqn:Hn.
  - exists doc. split; [reflexivity|].
    destruct (@object_fields_pass_through example_sdk checkout_event example_now
                doc Hn) as (o & Hobj & _ & _ & _ & _ & Hcustomer & _).
    exists o. split; assumption.
  - exfalso. vm_compute in Hn. discriminate.
Defined.

Lemma pii_entry_witness :
  exists doc, @normalize example_sdk checkout_event example_now = Ok doc
    /\ exists o email,
         event_object checkout_event = Ok (PDict o)
         /\ receipt_email (PDict o) = Ok email
         /\ exists v, doc_field doc "pii" "email_token" = Some v
              /\ (truthy email = false -> v = PNone).
Proof.
  destruct (@normalize example_sdk checkout_event example_now) as [doc|e] eqn:Hn.
  - exists doc. split; [reflexivity|].
    destruct (@pii_entry_is_not_the_raw_value example_sdk checkout_event example_now
                doc Hn) as (o & email & Hobj & Hemail & Hpii).
    exists o, email. split; [exact Hobj|]. split; [exact Hemail|].
    destruct (Hpii "email_token"%string email (or_introl (conj eq_refl eq_refl)))
      as (v & Hv & Hnone & _).
    exists v. split; assumption.
  - exfalso. vm_compute in Hn. discriminate.
Defined.

Lemma event_without_object_witness :
  has_no_object bare_event = true
  /\ exists doc, @normalize example_sdk bare_event example_now = Ok doc
       /\ doc_field doc "transaction" "amount_minor" = Some (PInt 0).
Proof.
  assert (Hno : has_no_object bare_event = true) by (vm_compute; reflexivity).
  split; [exact Hno|].
  destruct (@event_without_object_normalizes example_sdk bare_event example_now Hno)
    as (doc & Hn & _ & Hamount & _).
  exists doc. split; assumption.
Defined.

Lemma blank_string_witness :
  PyStr.strip "   " = EmptyString
  /\ @sha256_token example_sdk (PStr "   ")
     = Ok (Some "e3b0c44298fc1c149afbf4c8996fb92427ae41e4649b934ca495991b7852b855"%string).
Proof.
  assert (Hblank : PyStr.strip "   " = EmptyString) by (vm_compute; reflexivity).
  split; [exact Hblank|].
  exact (@blank_string_gets_empty_digest example_sdk " "%char "  "%string Hblank).
Defined.

Lemma token_of_normal_form_witness :
  is_ascii_text " Foo@Bar.com " = true
  /\ @py_lower example_sdk (PyStr.strip " Foo@Bar.com ") = "foo@bar.com"%string
  /\ @sha256_token example_sdk (PStr "foo@bar.com")
     = @sha256_token example_sdk (PStr " Foo@Bar.com ").
Proof.
  assert (Hs : is_ascii_text " Foo@Bar.com " = true) by (vm_compute; reflexivity).
  assert (Hnormal :
    @py_lower example_sdk (PyStr.strip " Foo@Bar.com ") = "foo@bar.com"%string)
    by (vm_compute; reflexivity).
  split; [exact Hs|]. split; [exact Hnormal|].
  destruct (@token_of_normal_form example_sdk " Foo@Bar.com "%string Hs)
    as (_ & Htoken).
  rewrite Hnormal in Htoken. apply Htoken. discriminate.
Defined.

Lemma token_ignores_case_witness :
  PyStr.lower_ascii "CUS_Ab1" = PyStr.lower_ascii "cus_aB1"
  /\ @sha256_token example_sdk (PStr "CUS_Ab1")
     = @sha256_token example_sdk (PStr "cus_aB1").
Proof.
  assert (Hcase : PyStr.lower_ascii "CUS_Ab1" = PyStr.lower_ascii "cus_aB1")
    by (vm_compute; reflexivity).
  split; [exact Hcase|].
  apply (@token_ignores_ascii_case example_sdk "C"%char "c"%char "US_Ab1" "us_aB1");
    [vm_compute; reflexivity | vm_compute; reflexivity | exact Hcase].
Defined.
